(** * Template climate: a shallow embedding of [TemplateClimate]

    The development follows
    [custom_components/template_climate/climate.py].  The entity class is a
    thin layer over the host platform: it keeps six name-to-script
    dictionaries and one stored state string, answers the read properties
    from them or from a "base" climate entity looked up in the host's entity
    component, and turns every write call into a script run followed by a
    call on the base entity.

    Python objects are modelled as records, dictionaries as insertion-ordered
    association lists (the order of [keys()] is observable through
    [hvac_modes] and [preset_modes]), feature bit-sets as [Z] with
    [Z.lor]/[Z.land], and the coroutines as a state-and-exception monad over
    the entity, the shared [HomeAssistant] object, the sequence of awaited
    calls and the log. *)

From Stdlib Require Import ZArith String List Bool Lia.
Import ListNotations.

Local Open Scope string_scope.
Local Open Scope list_scope.
Local Open Scope Z_scope.

(** ** Python values and exceptions *)

(** Values that travel through a service call.  A float is carried as its
    binary64 bit pattern; the component never computes with it. *)
Inductive PyValue : Type :=
| PyNone
| PyBool (b : bool)
| PyInt (n : Z)
| PyFloat (bits : Z)
| PyStr (s : string).

(** The exception classes that matter to the control flow of the module.
    [OtherError] stands for any class that is not one of the first four, for
    instance what a script or a delegate raises. *)
Inductive PyExc : Type :=
| TypeError (msg : string)
| ValueError (msg : string)
| AttributeError (msg : string)
| KeyError (key : string)
| OtherError (cls msg : string).

Definition is_ValueError (e : PyExc) : bool :=
  match e with
  | ValueError _ => true
  | _ => false
  end.

(** A call either raises or returns. *)
Definition PyResult (A : Type) : Type := (PyExc + A)%type.

(** ** Dictionaries

    A [dict] keeps its items in insertion order; assigning to an existing key
    keeps the key's position. *)
Module PyDict.

Section Ops.
Context {V : Type}.

Definition dict : Type := list (string * V).

Fixpoint get (d : dict) (k : string) : option V :=
  match d with
  | [] => None
  | (k', v) :: d' => if String.eqb k k' then Some v else get d' k
  end.

(** [k in d] *)
Definition contains (d : dict) (k : string) : bool :=
  match get d k with
  | Some _ => true
  | None => false
  end.

(** [d[k]] *)
Definition getitem (d : dict) (k : string) : PyResult V :=
  match get d k with
  | Some v => inr v
  | None => inl (KeyError k)
  end.

(** [d[k] = v] *)
Fixpoint set (d : dict) (k : string) (v : V) : dict :=
  match d with
  | [] => [(k, v)]
  | (k', v') :: d' =>
      if String.eqb k k' then (k', v) :: d' else (k', v') :: set d' k v
  end.

(** [list(d.keys())] *)
Definition keys (d : dict) : list string := map fst d.

(** [d.items()] *)
Definition items (d : dict) : list (string * V) := d.

(** [bool(d)] *)
Definition truthy (d : dict) : bool :=
  match d with
  | [] => false
  | _ :: _ => true
  end.

End Ops.

Arguments dict V : clear implicits.

(** [{k: f v for k, v in src.items()}] *)
Definition comprehension {A B : Type} (f : A -> B) (src : dict A) : dict B :=
  fold_left (fun acc kv => set acc (fst kv) (f (snd kv))) (items src) [].

End PyDict.

Import PyDict.

(** ** Host objects

    Everything in this part belongs to the host platform.  Each object is
    reduced to what [climate.py] reads from it or passes to it. *)

(** [homeassistant.core.Context], identified by its id. *)
Definition Context : Type := string.

(** A validated script configuration ([cv.SCRIPT_SCHEMA]): a sequence of
    steps, each opaque to this component. *)
Definition ScriptSequence : Type := list string.

(** [Script(hass, sequence, name, domain)] *)
Record Script : Type := {
  sequence : ScriptSequence;
  script_name : string;
  script_domain : string
}.

(** [homeassistant.components.climate.DOMAIN] *)
Definition CLIMATE_DOMAIN : string := "climate".

(** A [Template] object, reduced to its [template] attribute.  The class
    defines neither [__bool__] nor [__len__], so every instance is true in a
    boolean context. *)
Record Template : Type := {
  template : option string
}.

(** [ClimateEntityFeature], an [IntFlag]. *)
Module ClimateEntityFeature.

Definition TARGET_TEMPERATURE : Z := 1.
Definition TARGET_TEMPERATURE_RANGE : Z := 2.
Definition TARGET_HUMIDITY : Z := 4.
Definition FAN_MODE : Z := 8.
Definition PRESET_MODE : Z := 16.
Definition SWING_MODE : Z := 32.
Definition TURN_OFF : Z := 128.
Definition TURN_ON : Z := 256.
Definition SWING_HORIZONTAL_MODE : Z := 512.

End ClimateEntityFeature.

(** The calls of the climate-entity contract that [TemplateClimate]
    implements and forwards. *)
Inductive ClimateCall : Type :=
| call_set_temperature (kwargs : dict PyValue)
| call_set_humidity (humidity : Z)
| call_set_fan_mode (fan_mode : string)
| call_set_hvac_mode (hvac_mode : string)
| call_set_swing_mode (swing_mode : string)
| call_set_swing_horizontal_mode (swing_horizontal_mode : string)
| call_set_preset_mode (preset_mode : string)
| call_turn_on
| call_turn_off
| call_toggle.

(** Another climate entity of the host, as seen through the properties that
    are delegated to it.  An entity object is true in a boolean context. *)
Module ClimateEntity.

Record t : Type := {
  entity_id : string;
  supported_features : Z;
  state : option string;
  hvac_modes : list string;
  preset_modes : option (list string)
}.

End ClimateEntity.

(** [hass.data[CLIMATE_DOMAIN]]: the entity component of the climate domain,
    a lookup table from entity id to entity. *)
Definition EntityComponent : Type := dict ClimateEntity.t.

(** [component.get_entity(entity_id)] *)
Definition get_entity (component : EntityComponent) (entity_id : string)
  : option ClimateEntity.t :=
  get component entity_id.

(** The shared [HomeAssistant] object.  The climate component is present in
    [hass.data] whenever a climate platform has been set up. *)
Record HomeAssistant : Type := {
  data_CLIMATE_DOMAIN : EntityComponent
}.

(** What the state template delivers to the update callback: a
    [TemplateError], a string, or (outside the annotated type) an object
    whose [__str__] has the given outcome. *)
Inductive RenderResult : Type :=
| ResultTemplateError (err : string)
| ResultStr (s : string)
| ResultObject (str_outcome : PyResult string).

(** [str(result)] for a result that is not a [TemplateError]. *)
Definition py_str (result : RenderResult) : PyResult string :=
  match result with
  | ResultTemplateError err => inr err
  | ResultStr s => inr s
  | ResultObject str_outcome => str_outcome
  end.

(** ** Configuration *)

(** The validated value of a key that [CLIMATE_SCHEMA] takes over from
    [TEMPLATE_ENTITY_COMMON_SCHEMA] and [TEMPLATE_ENTITY_ATTRIBUTES_SCHEMA]
    (availability, icon, picture, attributes and the like): the text of a
    template, or a mapping from names to such texts. *)
Inductive InheritedValue : Type :=
| InheritedText (text : string)
| InheritedMapping (texts : dict string).

(** One validated entry of [CLIMATE_SCHEMA].  [vol.Optional] keys without a
    default may be absent; the six script mappings default to [{}].  The keys
    of the two inherited schemas are kept together, as given; only the
    superclass reads them. *)
Record ConfigType : Type := {
  CONF_TEMPERATURE_UNIT : string;
  CONF_STATE : option string;
  CONF_BASE_CLIMATE_ENTITY_ID : option string;
  CONF_UNIQUE_ID : option string;
  CONF_SERVICE_SCRIPTS : dict ScriptSequence;
  CONF_HVAC_MODE_SCRIPTS : dict ScriptSequence;
  CONF_PRESET_MODE_SCRIPTS : dict ScriptSequence;
  CONF_FAN_MODE_SCRIPTS : dict ScriptSequence;
  CONF_SWING_MODE_SCRIPTS : dict ScriptSequence;
  CONF_SWING_HORIZONTAL_MODE_SCRIPTS : dict ScriptSequence;
  TEMPLATE_ENTITY_KEYS : dict InheritedValue
}.

(** ** What [const.py] and the host supply *)

(** The names of the five service scripts, constants of [const.py]. *)
Class Const : Type := {
  CONF_TURN_ON_SCRIPT : string;
  CONF_TURN_OFF_SCRIPT : string;
  CONF_SET_TEMPERATURE_SCRIPT : string;
  CONF_SET_HUMIDITY_SCRIPT : string;
  CONF_TOGGLE_SCRIPT : string
}.

(** The host platform as this component uses it. *)
Class Host : Type := {
  (** The part of the object that the superclass [TemplateEntity] owns, its
      constructor and its own [_update_state]. *)
  TemplateEntity : Type;
  TemplateEntity___init__ : ConfigType -> option string -> TemplateEntity;
  TemplateEntity__update_state :
    TemplateEntity -> RenderResult -> TemplateEntity;
  (** [Template(text, hass)]: the host decides whether a missing text is
      rejected. *)
  Template___init__ : option string -> PyResult Template;
  (** What awaiting a script run or a call on another climate entity does to
      the shared [HomeAssistant] object, and whether it raises.  Neither
      holds the attributes of this entity; a callback that the host runs in
      the meantime is a step of its own (see [reachable]). *)
  Script_async_run :
    Script -> option (dict PyValue) -> option Context ->
    HomeAssistant -> PyResult unit * HomeAssistant;
  ClimateEntity_async_call :
    ClimateEntity.t -> ClimateCall ->
    HomeAssistant -> PyResult unit * HomeAssistant
}.

(** ** The entity: attributes, construction and read properties *)

Section Entity.

Context {const : Const} {host : Host}.

(** *** The entity's attributes *)

Record TemplateClimate : Type := {
  super : TemplateEntity;
  _context : option Context;
  _attr_should_poll : bool;
  _attr_temperature_unit : string;
  _base_climate_entity_id : option string;
  _state_template : option Template;
  _state : option string;
  _service_scripts : dict Script;
  _hvac_mode_scripts : dict Script;
  _preset_mode_scripts : dict Script;
  _fan_mode_scripts : dict Script;
  _swing_mode_scripts : dict Script;
  _swing_horizontal_mode_scripts : dict Script
}.

(** *** Construction *)

(** [{key: Script(hass, seq, name, CLIMATE_DOMAIN) for key, seq in ...items()}] *)
Definition scripts_of (name : string) (configured : dict ScriptSequence)
  : dict Script :=
  comprehension
    (fun seq =>
       {| sequence := seq; script_name := name;
          script_domain := CLIMATE_DOMAIN |})
    configured.

Definition __init__ (config : ConfigType) (name : string)
  : PyResult TemplateClimate :=
  let unique_id : option string :=
    match CONF_UNIQUE_ID config with
    | Some u => Some u
    | None => Some name
    end in
  let super_part := TemplateEntity___init__ config unique_id in
  match Template___init__ (CONF_STATE config) with
  | inl e => inl e
  | inr state_template =>
      inr {| super := super_part;
             _context := None;
             _attr_should_poll := false;
             _attr_temperature_unit := CONF_TEMPERATURE_UNIT config;
             _base_climate_entity_id := CONF_BASE_CLIMATE_ENTITY_ID config;
             _state_template := Some state_template;
             _state := None;
             _service_scripts :=
               scripts_of name (CONF_SERVICE_SCRIPTS config);
             _hvac_mode_scripts :=
               scripts_of name (CONF_HVAC_MODE_SCRIPTS config);
             _preset_mode_scripts :=
               scripts_of name (CONF_PRESET_MODE_SCRIPTS config);
             _fan_mode_scripts :=
               scripts_of name (CONF_FAN_MODE_SCRIPTS config);
             _swing_mode_scripts :=
               scripts_of name (CONF_SWING_MODE_SCRIPTS config);
             _swing_horizontal_mode_scripts :=
               scripts_of name (CONF_SWING_HORIZONTAL_MODE_SCRIPTS config) |}
  end.

(** *** Read properties *)

(** Truth value of [str | None]. *)
Definition truthy_str (s : option string) : bool :=
  match s with
  | Some s' => negb (String.eqb s' EmptyString)
  | None => false
  end.

(** Truth value of an optional object whose class has the default one. *)
Definition truthy_obj {A : Type} (o : option A) : bool :=
  match o with
  | Some _ => true
  | None => false
  end.

Definition _base_climate_entity (self : TemplateClimate) (hass : HomeAssistant)
  : option ClimateEntity.t :=
  if truthy_str (_base_climate_entity_id self) then
    let component := data_CLIMATE_DOMAIN hass in
    match _base_climate_entity_id self with
    | Some entity_id =>
        match get_entity component entity_id with
        | Some entity => Some entity
        | None => None
        end
    | None => None
    end
  else None.

Definition supported_features (self : TemplateClimate) (hass : HomeAssistant)
  : Z :=
  let support := 0 in
  let support :=
    match _base_climate_entity self hass with
    | Some base => Z.lor support (ClimateEntity.supported_features base)
    | None => support
    end in
  let support :=
    if contains (_service_scripts self) CONF_TURN_ON_SCRIPT
    then Z.lor support ClimateEntityFeature.TURN_ON else support in
  let support :=
    if contains (_service_scripts self) CONF_TURN_OFF_SCRIPT
    then Z.lor support ClimateEntityFeature.TURN_OFF else support in
  let support :=
    if contains (_service_scripts self) CONF_SET_TEMPERATURE_SCRIPT
    then Z.lor support ClimateEntityFeature.TARGET_TEMPERATURE else support in
  let support :=
    if contains (_service_scripts self) CONF_SET_HUMIDITY_SCRIPT
    then Z.lor support ClimateEntityFeature.TARGET_HUMIDITY else support in
  let support :=
    if truthy (_fan_mode_scripts self)
    then Z.lor support ClimateEntityFeature.FAN_MODE else support in
  let support :=
    if truthy (_preset_mode_scripts self)
    then Z.lor support ClimateEntityFeature.PRESET_MODE else support in
  let support :=
    if truthy (_swing_mode_scripts self)
    then Z.lor support ClimateEntityFeature.SWING_MODE else support in
  let support :=
    if truthy (_swing_horizontal_mode_scripts self)
    then Z.lor support ClimateEntityFeature.SWING_HORIZONTAL_MODE
    else support in
  support.

Definition state (self : TemplateClimate) (hass : HomeAssistant)
  : option string :=
  if truthy_obj (_state_template self) then _state self
  else
    match _base_climate_entity self hass with
    | Some base => ClimateEntity.state base
    | None => None
    end.

Definition hvac_modes (self : TemplateClimate) (hass : HomeAssistant)
  : list string :=
  if truthy (_hvac_mode_scripts self) then keys (_hvac_mode_scripts self)
  else
    match _base_climate_entity self hass with
    | Some base => ClimateEntity.hvac_modes base
    | None => []
    end.

Definition preset_modes (self : TemplateClimate) (hass : HomeAssistant)
  : option (list string) :=
  if truthy (_preset_mode_scripts self)
  then Some (keys (_preset_mode_scripts self))
  else
    match _base_climate_entity self hass with
    | Some base => ClimateEntity.preset_modes base
    | None => None
    end.

End Entity.

(** ** Coroutines and callbacks

    A method runs against the entity itself, the shared [HomeAssistant]
    object, the calls it has awaited so far, the records it has logged and
    the template attributes registered with the superclass.  A raised
    exception keeps whatever was changed before it. *)

Section Coroutines.

Context {host : Host}.

Inductive Awaited : Type :=
| RunScript (script : Script) (run_variables : option (dict PyValue))
    (context : option Context)
| BaseCall (target : ClimateEntity.t) (call : ClimateCall).

Inductive LogRecord : Type :=
| LogError (fmt : string) (arg : RenderResult).

Record World : Type := {
  self : TemplateClimate;
  hass : HomeAssistant;
  awaited : list Awaited;
  log : list LogRecord;
  template_attrs : list (string * Template)
}.

Definition Coro (A : Type) : Type := World -> PyResult A * World.

Definition ret {A : Type} (a : A) : Coro A := fun w => (inr a, w).

Definition bind {A B : Type} (m : Coro A) (k : A -> Coro B) : Coro B :=
  fun w =>
    match m w with
    | (inl e, w') => (inl e, w')
    | (inr a, w') => k a w'
    end.

Definition raise {A : Type} (e : PyExc) : Coro A := fun w => (inl e, w).

(** [try: body  except <caught>: handler] *)
Definition try_except {A : Type} (body : Coro A) (caught : PyExc -> bool)
  (handler : Coro A) : Coro A :=
  fun w =>
    match body w with
    | (inl e, w') => if caught e then handler w' else (inl e, w')
    | (inr a, w') => (inr a, w')
    end.

Definition lift {A : Type} (r : PyResult A) : Coro A := fun w => (r, w).

(** [if cond: body] *)
Definition when (cond : bool) (body : Coro unit) : Coro unit :=
  if cond then body else ret tt.

(** Reading an attribute or a property of [self]. *)
Definition attr {A : Type} (f : TemplateClimate -> A) : Coro A :=
  fun w => (inr (f (self w)), w).

Definition prop {A : Type} (f : TemplateClimate -> HomeAssistant -> A)
  : Coro A :=
  fun w => (inr (f (self w) (hass w)), w).

(** Calling a method on a value that may be [None]. *)
Definition deref {A : Type} (o : option A) : Coro A :=
  match o with
  | Some a => ret a
  | None => raise (AttributeError "'NoneType' object has no attribute")
  end.

(** [self._state = value] *)
Definition set__state (value : option string) : Coro unit :=
  fun w =>
    let s := self w in
    (inr tt,
     {| self :=
          {| super := super s;
             _context := _context s;
             _attr_should_poll := _attr_should_poll s;
             _attr_temperature_unit := _attr_temperature_unit s;
             _base_climate_entity_id := _base_climate_entity_id s;
             _state_template := _state_template s;
             _state := value;
             _service_scripts := _service_scripts s;
             _hvac_mode_scripts := _hvac_mode_scripts s;
             _preset_mode_scripts := _preset_mode_scripts s;
             _fan_mode_scripts := _fan_mode_scripts s;
             _swing_mode_scripts := _swing_mode_scripts s;
             _swing_horizontal_mode_scripts :=
               _swing_horizontal_mode_scripts s |};
        hass := hass w; awaited := awaited w; log := log w;
        template_attrs := template_attrs w |}).

(** [super()._update_state(result)] *)
Definition super__update_state (result : RenderResult) : Coro unit :=
  fun w =>
    let s := self w in
    (inr tt,
     {| self :=
          {| super := TemplateEntity__update_state (super s) result;
             _context := _context s;
             _attr_should_poll := _attr_should_poll s;
             _attr_temperature_unit := _attr_temperature_unit s;
             _base_climate_entity_id := _base_climate_entity_id s;
             _state_template := _state_template s;
             _state := _state s;
             _service_scripts := _service_scripts s;
             _hvac_mode_scripts := _hvac_mode_scripts s;
             _preset_mode_scripts := _preset_mode_scripts s;
             _fan_mode_scripts := _fan_mode_scripts s;
             _swing_mode_scripts := _swing_mode_scripts s;
             _swing_horizontal_mode_scripts :=
               _swing_horizontal_mode_scripts s |};
        hass := hass w; awaited := awaited w; log := log w;
        template_attrs := template_attrs w |}).

(** [_LOGGER.error(fmt, arg)] *)
Definition _LOGGER_error (fmt : string) (arg : RenderResult) : Coro unit :=
  fun w =>
    (inr tt,
     {| self := self w; hass := hass w; awaited := awaited w;
        log := log w ++ [LogError fmt arg];
        template_attrs := template_attrs w |}).

(** [await script.async_run(run_variables, context=context)] *)
Definition await_script (script : Script)
  (run_variables : option (dict PyValue)) (context : option Context)
  : Coro unit :=
  fun w =>
    let (outcome, hass') :=
      Script_async_run script run_variables context (hass w) in
    (outcome,
     {| self := self w; hass := hass';
        awaited := awaited w ++ [RunScript script run_variables context];
        log := log w; template_attrs := template_attrs w |}).

(** [await entity.async_<call>(...)] *)
Definition await_base (target : ClimateEntity.t) (call : ClimateCall)
  : Coro unit :=
  fun w =>
    let (outcome, hass') := ClimateEntity_async_call target call (hass w) in
    (outcome,
     {| self := self w; hass := hass';
        awaited := awaited w ++ [BaseCall target call];
        log := log w; template_attrs := template_attrs w |}).

End Coroutines.

Declare Scope coro_scope.
Delimit Scope coro_scope with coro.
Notation "x <- m ;; k" := (bind m (fun x => k))
  (at level 61, m at next level, right associativity) : coro_scope.
Notation "m ;; k" := (bind m (fun _ => k))
  (at level 61, right associativity) : coro_scope.
Local Open Scope coro_scope.

(** ** The methods that act *)

Section Methods.

Context {const : Const} {host : Host}.

(** *** The state-template callback *)

Definition _update_state (result : RenderResult) : Coro unit :=
  super__update_state result ;;
  match result with
  | ResultTemplateError _ =>
      _LOGGER_error "Could not render state template: %s" result ;;
      set__state None
  | _ =>
      try_except
        (state <- lift (py_str result) ;;
         set__state (Some state))
        is_ValueError
        (_LOGGER_error "Received invalid state: %s" result ;;
         set__state None)
  end.

(** [add_template_attribute(attribute, template, None, on_update)]: the text
    is prefixed, wrapped in a new [Template] and handed to the superclass,
    which records it. *)
Definition str_add (a : string) (b : option string) : PyResult string :=
  match b with
  | Some b' => inr (a ++ b')%string
  | None => inl (TypeError "can only concatenate str (not NoneType) to str")
  end.

Definition add_template_attribute (attribute : string)
  (tpl : option Template) : Coro unit :=
  t <- deref tpl ;;
  head <- lift (str_add "{% set attribute = '" (Some attribute)) ;;
  head <- lift (str_add head (Some "' %}")) ;;
  text <- lift (str_add head (template t)) ;;
  tracked <- lift (Template___init__ (Some text)) ;;
  fun w =>
    (inr tt,
     {| self := self w; hass := hass w; awaited := awaited w; log := log w;
        template_attrs := template_attrs w ++ [(attribute, tracked)] |}).

(** The registration that [async_added_to_hass] itself performs.  The method
    ends by awaiting the superclass's [async_added_to_hass], which is the
    host's: what that does to this entity goes through the overridden
    [add_template_attribute] (the inherited templates it registers) and
    through the callback (the renders it delivers), and both are steps of
    [reachable] below. *)
Definition async_added_to_hass : Coro unit :=
  tpl <- attr _state_template ;;
  add_template_attribute "_state" tpl.

(** *** Write methods *)

Definition async_set_temperature (kwargs : dict PyValue) : Coro unit :=
  has_script <-
    attr (fun s => contains (_service_scripts s) CONF_SET_TEMPERATURE_SCRIPT) ;;
  when has_script
    (scripts <- attr _service_scripts ;;
     script <- lift (getitem scripts CONF_SET_TEMPERATURE_SCRIPT) ;;
     context <- attr _context ;;
     await_script script (Some kwargs) context) ;;
  base <- prop _base_climate_entity ;;
  when (truthy_obj base)
    (base <- prop _base_climate_entity ;;
     target <- deref base ;;
     await_base target (call_set_temperature kwargs)).

Definition async_set_humidity (humidity : Z) : Coro unit :=
  has_script <-
    attr (fun s => contains (_service_scripts s) CONF_SET_HUMIDITY_SCRIPT) ;;
  when has_script
    (scripts <- attr _service_scripts ;;
     script <- lift (getitem scripts CONF_SET_HUMIDITY_SCRIPT) ;;
     context <- attr _context ;;
     await_script script (Some [("humidity", PyInt humidity)]) context) ;;
  base <- prop _base_climate_entity ;;
  when (truthy_obj base)
    (base <- prop _base_climate_entity ;;
     target <- deref base ;;
     await_base target (call_set_humidity humidity)).

Definition async_set_fan_mode (fan_mode : string) : Coro unit :=
  has_script <- attr (fun s => contains (_fan_mode_scripts s) fan_mode) ;;
  when has_script
    (scripts <- attr _fan_mode_scripts ;;
     script <- lift (getitem scripts fan_mode) ;;
     context <- attr _context ;;
     await_script script None context) ;;
  base <- prop _base_climate_entity ;;
  when (truthy_obj base)
    (base <- prop _base_climate_entity ;;
     target <- deref base ;;
     await_base target (call_set_fan_mode fan_mode)).

Definition async_set_hvac_mode (hvac_mode : string) : Coro unit :=
  has_script <- attr (fun s => contains (_hvac_mode_scripts s) hvac_mode) ;;
  when has_script
    (scripts <- attr _hvac_mode_scripts ;;
     script <- lift (getitem scripts hvac_mode) ;;
     context <- attr _context ;;
     await_script script None context) ;;
  base <- prop _base_climate_entity ;;
  when (truthy_obj base)
    (base <- prop _base_climate_entity ;;
     target <- deref base ;;
     await_base target (call_set_hvac_mode hvac_mode)).

Definition async_set_swing_mode (swing_mode : string) : Coro unit :=
  has_script <- attr (fun s => contains (_swing_mode_scripts s) swing_mode) ;;
  when has_script
    (scripts <- attr _swing_mode_scripts ;;
     script <- lift (getitem scripts swing_mode) ;;
     context <- attr _context ;;
     await_script script None context) ;;
  base <- prop _base_climate_entity ;;
  when (truthy_obj base)
    (base <- prop _base_climate_entity ;;
     target <- deref base ;;
     await_base target (call_set_swing_mode swing_mode)).

Definition async_set_swing_horizontal_mode (swing_horizontal_mode : string)
  : Coro unit :=
  has_script <-
    attr (fun s =>
            contains (_swing_horizontal_mode_scripts s) swing_horizontal_mode) ;;
  when has_script
    (scripts <- attr _swing_horizontal_mode_scripts ;;
     script <- lift (getitem scripts swing_horizontal_mode) ;;
     context <- attr _context ;;
     await_script script None context) ;;
  base <- prop _base_climate_entity ;;
  when (truthy_obj base)
    (base <- prop _base_climate_entity ;;
     target <- deref base ;;
     await_base target (call_set_swing_horizontal_mode swing_horizontal_mode)).

Definition async_set_preset_mode (preset_mode : string) : Coro unit :=
  has_script <- attr (fun s => contains (_preset_mode_scripts s) preset_mode) ;;
  when has_script
    (scripts <- attr _preset_mode_scripts ;;
     script <- lift (getitem scripts preset_mode) ;;
     context <- attr _context ;;
     await_script script None context) ;;
  base <- prop _base_climate_entity ;;
  when (truthy_obj base)
    (base <- prop _base_climate_entity ;;
     target <- deref base ;;
     await_base target (call_set_preset_mode preset_mode)).

Definition async_turn_on : Coro unit :=
  has_script <-
    attr (fun s => contains (_service_scripts s) CONF_TURN_ON_SCRIPT) ;;
  when has_script
    (scripts <- attr _service_scripts ;;
     script <- lift (getitem scripts CONF_TURN_ON_SCRIPT) ;;
     context <- attr _context ;;
     await_script script None context) ;;
  base <- prop _base_climate_entity ;;
  when (truthy_obj base)
    (base <- prop _base_climate_entity ;;
     target <- deref base ;;
     await_base target call_turn_on).

Definition async_turn_off : Coro unit :=
  has_script <-
    attr (fun s => contains (_service_scripts s) CONF_TURN_OFF_SCRIPT) ;;
  when has_script
    (scripts <- attr _service_scripts ;;
     script <- lift (getitem scripts CONF_TURN_OFF_SCRIPT) ;;
     context <- attr _context ;;
     await_script script None context) ;;
  base <- prop _base_climate_entity ;;
  when (truthy_obj base)
    (base <- prop _base_climate_entity ;;
     target <- deref base ;;
     await_base target call_turn_off).

Definition async_toggle : Coro unit :=
  has_script <-
    attr (fun s => contains (_service_scripts s) CONF_TOGGLE_SCRIPT) ;;
  when has_script
    (scripts <- attr _service_scripts ;;
     script <- lift (getitem scripts CONF_TOGGLE_SCRIPT) ;;
     context <- attr _context ;;
     await_script script None context) ;;
  base <- prop _base_climate_entity ;;
  when (truthy_obj base)
    (base <- prop _base_climate_entity ;;
     target <- deref base ;;
     await_base target call_toggle).

(** The host's service layer: which method a call of the climate contract
    reaches. *)
Definition perform (call : ClimateCall) : Coro unit :=
  match call with
  | call_set_temperature kwargs => async_set_temperature kwargs
  | call_set_humidity humidity => async_set_humidity humidity
  | call_set_fan_mode fan_mode => async_set_fan_mode fan_mode
  | call_set_hvac_mode hvac_mode => async_set_hvac_mode hvac_mode
  | call_set_swing_mode swing_mode => async_set_swing_mode swing_mode
  | call_set_swing_horizontal_mode m => async_set_swing_horizontal_mode m
  | call_set_preset_mode preset_mode => async_set_preset_mode preset_mode
  | call_turn_on => async_turn_on
  | call_turn_off => async_turn_off
  | call_toggle => async_toggle
  end.

End Methods.

(** ** The entity's life

    What can happen to an entity built from [config]: the host adds it
    (registering the state template), delivers a render of a registered
    template to the callback, routes a service call to a write method, sets
    the context of the current call, changes the shared [HomeAssistant]
    object on its own, or, in the superclass's [async_added_to_hass],
    registers an inherited template through the overridden
    [add_template_attribute]. *)

Section Lifecycle.

Context {const : Const} {host : Host}.

(** [self._context = context], done by the host before a service call. *)
Definition set__context (context : option Context) : Coro unit :=
  fun w =>
    let s := self w in
    (inr tt,
     {| self :=
          {| super := super s;
             _context := context;
             _attr_should_poll := _attr_should_poll s;
             _attr_temperature_unit := _attr_temperature_unit s;
             _base_climate_entity_id := _base_climate_entity_id s;
             _state_template := _state_template s;
             _state := _state s;
             _service_scripts := _service_scripts s;
             _hvac_mode_scripts := _hvac_mode_scripts s;
             _preset_mode_scripts := _preset_mode_scripts s;
             _fan_mode_scripts := _fan_mode_scripts s;
             _swing_mode_scripts := _swing_mode_scripts s;
             _swing_horizontal_mode_scripts :=
               _swing_horizontal_mode_scripts s |};
        hass := hass w; awaited := awaited w; log := log w;
        template_attrs := template_attrs w |}).

Definition with_hass (w : World) (hass' : HomeAssistant) : World :=
  {| self := self w; hass := hass'; awaited := awaited w; log := log w;
     template_attrs := template_attrs w |}.

Inductive reachable (config : ConfigType) (name : string) : World -> Prop :=
| reach_init : forall entity hass0,
    __init__ config name = inr entity ->
    reachable config name
      {| self := entity; hass := hass0; awaited := []; log := [];
         template_attrs := [] |}
| reach_added : forall w,
    reachable config name w ->
    reachable config name (snd (async_added_to_hass w))
| reach_render : forall w tracked result,
    reachable config name w ->
    In ("_state", tracked) (template_attrs w) ->
    reachable config name (snd (_update_state result w))
| reach_call : forall w context call,
    reachable config name w ->
    reachable config name
      (snd (perform call (snd (set__context context w))))
| reach_host : forall w hass',
    reachable config name w ->
    reachable config name (with_hass w hass')
| reach_inherited : forall w attribute inherited,
    reachable config name w ->
    reachable config name
      (snd (add_template_attribute attribute (Some inherited) w)).

(** ** Vocabulary of the specification *)

(** The flag of a script group, present when the group is. *)
Definition flag_if (present : bool) (flag : Z) : Z :=
  if present then flag else 0.

(** The features of the base entity when it resolves, none otherwise. *)
Definition base_features (self : TemplateClimate) (hass : HomeAssistant) : Z :=
  match _base_climate_entity self hass with
  | Some base => ClimateEntity.supported_features base
  | None => 0
  end.

(** One flag per configured script group that exists. *)
Definition script_group_flags (self : TemplateClimate) : list Z :=
  [ flag_if (contains (_service_scripts self) CONF_TURN_ON_SCRIPT)
      ClimateEntityFeature.TURN_ON;
    flag_if (contains (_service_scripts self) CONF_TURN_OFF_SCRIPT)
      ClimateEntityFeature.TURN_OFF;
    flag_if (contains (_service_scripts self) CONF_SET_TEMPERATURE_SCRIPT)
      ClimateEntityFeature.TARGET_TEMPERATURE;
    flag_if (contains (_service_scripts self) CONF_SET_HUMIDITY_SCRIPT)
      ClimateEntityFeature.TARGET_HUMIDITY;
    flag_if (truthy (_fan_mode_scripts self)) ClimateEntityFeature.FAN_MODE;
    flag_if (truthy (_preset_mode_scripts self))
      ClimateEntityFeature.PRESET_MODE;
    flag_if (truthy (_swing_mode_scripts self))
      ClimateEntityFeature.SWING_MODE;
    flag_if (truthy (_swing_horizontal_mode_scripts self))
      ClimateEntityFeature.SWING_HORIZONTAL_MODE ].

(** The script that applies to a call: the service script of an
    unconditional action, the mode script of the requested mode. *)
Definition applicable_script (self : TemplateClimate) (call : ClimateCall)
  : option Script :=
  match call with
  | call_set_temperature _ =>
      get (_service_scripts self) CONF_SET_TEMPERATURE_SCRIPT
  | call_set_humidity _ => get (_service_scripts self) CONF_SET_HUMIDITY_SCRIPT
  | call_set_fan_mode m => get (_fan_mode_scripts self) m
  | call_set_hvac_mode m => get (_hvac_mode_scripts self) m
  | call_set_swing_mode m => get (_swing_mode_scripts self) m
  | call_set_swing_horizontal_mode m =>
      get (_swing_horizontal_mode_scripts self) m
  | call_set_preset_mode m => get (_preset_mode_scripts self) m
  | call_turn_on => get (_service_scripts self) CONF_TURN_ON_SCRIPT
  | call_turn_off => get (_service_scripts self) CONF_TURN_OFF_SCRIPT
  | call_toggle => get (_service_scripts self) CONF_TOGGLE_SCRIPT
  end.

(** The run variables a call hands to its script: the keyword arguments of
    set-temperature, the humidity of set-humidity, none for a mode or for
    turn-on, turn-off and toggle (there the name selects the script). *)
Definition run_variables_of (call : ClimateCall) : option (dict PyValue) :=
  match call with
  | call_set_temperature kwargs => Some kwargs
  | call_set_humidity humidity => Some [("humidity", PyInt humidity)]
  | _ => None
  end.

End Lifecycle.

(** ** Platform setup *)

Section Platform.

Context {host : Host}.

(** The loop of [async_setup_platform]:
    [for climate_name, climate_config in climate_configs.items():
         climates.append(TemplateClimate(hass, climate_config, climate_name))].
    An exception of the constructor leaves the loop and the function. *)
Fixpoint async_setup_platform_loop (remaining : list (string * ConfigType))
  (climates : list TemplateClimate) : PyResult (list TemplateClimate) :=
  match remaining with
  | [] => inr climates
  | (climate_name, climate_config) :: rest =>
      match __init__ climate_config climate_name with
      | inl e => inl e
      | inr climate => async_setup_platform_loop rest (climates ++ [climate])
      end
  end.

(** [async_setup_platform(hass, config, async_add_entities)], with
    [climate_configs = config[CONF_CLIMATES]].  The host's
    [async_add_entities] appends what it is given to the entities of the
    platform, the second component of the result. *)
Definition async_setup_platform (climate_configs : dict ConfigType)
  (platform_entities : list TemplateClimate)
  : PyResult unit * list TemplateClimate :=
  match async_setup_platform_loop (items climate_configs) [] with
  | inl e => (inl e, platform_entities)
  | inr climates => (inr tt, platform_entities ++ climates)
  end.

End Platform.

(** ** Sample hosts and inputs *)

Module Sample.

Definition const : Const := {|
  CONF_TURN_ON_SCRIPT := "turn_on";
  CONF_TURN_OFF_SCRIPT := "turn_off";
  CONF_SET_TEMPERATURE_SCRIPT := "set_temperature";
  CONF_SET_HUMIDITY_SCRIPT := "set_humidity";
  CONF_TOGGLE_SCRIPT := "toggle"
|}.

(** A host whose [Template] accepts a missing text and keeps it, whose
    scripts and entities return without touching the shared object.  It is
    the permissive reading of line 119; the host the component ships for is
    closer to [strict] below. *)
Definition lenient : Host := {|
  TemplateEntity := option string;
  TemplateEntity___init__ := fun _ unique_id => unique_id;
  TemplateEntity__update_state := fun s _ => s;
  Template___init__ := fun text => inr {| template := text |};
  Script_async_run := fun _ _ _ h => (inr tt, h);
  ClimateEntity_async_call := fun _ _ h => (inr tt, h)
|}.

(** A host whose [Template] raises [TypeError] unless it is given a
    string. *)
Definition strict : Host := {|
  TemplateEntity := option string;
  TemplateEntity___init__ := fun _ unique_id => unique_id;
  TemplateEntity__update_state := fun s _ => s;
  Template___init__ := fun text =>
    match text with
    | Some s => inr {| template := Some s |}
    | None => inl (TypeError "Expected template to be a string")
    end;
  Script_async_run := fun _ _ _ h => (inr tt, h);
  ClimateEntity_async_call := fun _ _ h => (inr tt, h)
|}.

Definition base : ClimateEntity.t := {|
  ClimateEntity.entity_id := "climate.base";
  ClimateEntity.supported_features := 9;
  ClimateEntity.state := Some "heat";
  ClimateEntity.hvac_modes := ["off"; "heat"];
  ClimateEntity.preset_modes := Some ["eco"; "comfort"]
|}.

Definition hass_with_base : HomeAssistant :=
  {| data_CLIMATE_DOMAIN := [("climate.base", base)] |}.

Definition hass_empty : HomeAssistant := {| data_CLIMATE_DOMAIN := [] |}.

(** No state template, no base entity, no scripts. *)
Definition config_bare : ConfigType := {|
  CONF_TEMPERATURE_UNIT := "C";
  CONF_STATE := None;
  CONF_BASE_CLIMATE_ENTITY_ID := None;
  CONF_UNIQUE_ID := None;
  CONF_SERVICE_SCRIPTS := [];
  CONF_HVAC_MODE_SCRIPTS := [];
  CONF_PRESET_MODE_SCRIPTS := [];
  CONF_FAN_MODE_SCRIPTS := [];
  CONF_SWING_MODE_SCRIPTS := [];
  CONF_SWING_HORIZONTAL_MODE_SCRIPTS := [];
  TEMPLATE_ENTITY_KEYS := []
|}.

(** No state template, a base entity, no scripts. *)
Definition config_base_only : ConfigType := {|
  CONF_TEMPERATURE_UNIT := "C";
  CONF_STATE := None;
  CONF_BASE_CLIMATE_ENTITY_ID := Some "climate.base";
  CONF_UNIQUE_ID := None;
  CONF_SERVICE_SCRIPTS := [];
  CONF_HVAC_MODE_SCRIPTS := [];
  CONF_PRESET_MODE_SCRIPTS := [];
  CONF_FAN_MODE_SCRIPTS := [];
  CONF_SWING_MODE_SCRIPTS := [];
  CONF_SWING_HORIZONTAL_MODE_SCRIPTS := [];
  TEMPLATE_ENTITY_KEYS := []
|}.

(** A state template, a base entity and a script in every group. *)
Definition config_full : ConfigType := {|
  CONF_TEMPERATURE_UNIT := "C";
  CONF_STATE := Some "{{ states('sensor.mode') }}";
  CONF_BASE_CLIMATE_ENTITY_ID := Some "climate.base";
  CONF_UNIQUE_ID := Some "virtual";
  CONF_SERVICE_SCRIPTS :=
    [("turn_on", ["on"]); ("turn_off", ["off"]);
     ("set_temperature", ["temp"]); ("set_humidity", ["hum"]);
     ("toggle", ["flip"])];
  CONF_HVAC_MODE_SCRIPTS := [("heat", ["h"]); ("cool", ["c"])];
  CONF_PRESET_MODE_SCRIPTS := [("away", ["a"]); ("home", ["b"])];
  CONF_FAN_MODE_SCRIPTS := [("low", ["l"]); ("high", ["g"])];
  CONF_SWING_MODE_SCRIPTS := [("on", ["s"])];
  CONF_SWING_HORIZONTAL_MODE_SCRIPTS := [("left", ["x"])];
  TEMPLATE_ENTITY_KEYS := [("icon", InheritedText "mdi:thermostat")]
|}.

(** The entities the lenient host builds from these configurations. *)
Definition entity_bare : @TemplateClimate lenient :=
  Eval cbv in
    match @__init__ lenient config_bare "virtual" as r
          return match r with inr _ => @TemplateClimate lenient | inl _ => unit end
    with
    | inr entity => entity
    | inl _ => tt
    end.

Definition entity_base_only : @TemplateClimate lenient :=
  Eval cbv in
    match @__init__ lenient config_base_only "virtual" as r
          return match r with inr _ => @TemplateClimate lenient | inl _ => unit end
    with
    | inr entity => entity
    | inl _ => tt
    end.

Definition entity_full : @TemplateClimate lenient :=
  Eval cbv in
    match @__init__ lenient config_full "virtual" as r
          return match r with inr _ => @TemplateClimate lenient | inl _ => unit end
    with
    | inr entity => entity
    | inl _ => tt
    end.

Definition world_of (entity : @TemplateClimate lenient) (h : HomeAssistant)
  : @World lenient :=
  {| self := entity; hass := h; awaited := []; log := [];
     template_attrs := [] |}.

End Sample.

(** Further hosts and inputs. *)
Module SampleMore.

(** A host whose scripts raise. *)
Definition failing_scripts : Host := {|
  TemplateEntity := option string;
  TemplateEntity___init__ := fun _ unique_id => unique_id;
  TemplateEntity__update_state := fun s _ => s;
  Template___init__ := fun text => inr {| template := text |};
  Script_async_run := fun _ _ _ h =>
    (inl (OtherError "HomeAssistantError" "script failed"), h);
  ClimateEntity_async_call := fun _ _ h => (inr tt, h)
|}.

(** The full configuration without a base entity. *)
Definition config_scripts_only : ConfigType := {|
  CONF_TEMPERATURE_UNIT := "C";
  CONF_STATE := Some "{{ states('sensor.mode') }}";
  CONF_BASE_CLIMATE_ENTITY_ID := None;
  CONF_UNIQUE_ID := None;
  CONF_SERVICE_SCRIPTS := [("turn_on", ["on"])];
  CONF_HVAC_MODE_SCRIPTS := [("heat", ["h"]); ("cool", ["c"])];
  CONF_PRESET_MODE_SCRIPTS := [];
  CONF_FAN_MODE_SCRIPTS := [("low", ["l"])];
  CONF_SWING_MODE_SCRIPTS := [];
  CONF_SWING_HORIZONTAL_MODE_SCRIPTS := [];
  TEMPLATE_ENTITY_KEYS := []
|}.

Definition entity_scripts_only : @TemplateClimate Sample.lenient :=
  Eval cbv in
    match @__init__ Sample.lenient config_scripts_only "virtual" as r
          return match r with
                 | inr _ => @TemplateClimate Sample.lenient
                 | inl _ => unit
                 end
    with
    | inr entity => entity
    | inl _ => tt
    end.

(** The full entity as the host with failing scripts sees it. *)
Definition entity_full_failing : @TemplateClimate failing_scripts :=
  Eval cbv in
    match @__init__ failing_scripts Sample.config_full "virtual" as r
          return match r with
                 | inr _ => @TemplateClimate failing_scripts
                 | inl _ => unit
                 end
    with
    | inr entity => entity
    | inl _ => tt
    end.

Definition world_failing (h : HomeAssistant) : @World failing_scripts :=
  {| self := entity_full_failing; hass := h; awaited := []; log := [];
     template_attrs := [] |}.

(** Two entries of a platform configuration. *)
Definition climates_two : dict ConfigType :=
  [("living_room", Sample.config_full); ("attic", Sample.config_bare)].

Definition climates_templated : dict ConfigType :=
  [("living_room", Sample.config_full); ("office", config_scripts_only)].

(** The entities the lenient host builds from [climates_templated]. *)
Definition entity_living_room : @TemplateClimate Sample.lenient :=
  Eval cbv in
    match @__init__ Sample.lenient Sample.config_full "living_room" as r
          return match r with
                 | inr _ => @TemplateClimate Sample.lenient
                 | inl _ => unit
                 end
    with
    | inr entity => entity
    | inl _ => tt
    end.

Definition entity_office : @TemplateClimate Sample.lenient :=
  Eval cbv in
    match @__init__ Sample.lenient config_scripts_only "office" as r
          return match r with
                 | inr _ => @TemplateClimate Sample.lenient
                 | inl _ => unit
                 end
    with
    | inr entity => entity
    | inl _ => tt
    end.

(** The full entity as the strict host builds it. *)
Definition entity_full_strict : @TemplateClimate Sample.strict :=
  Eval cbv in
    match @__init__ Sample.strict Sample.config_full "virtual" as r
          return match r with
                 | inr _ => @TemplateClimate Sample.strict
                 | inl _ => unit
                 end
    with
    | inr entity => entity
    | inl _ => tt
    end.

Definition world_strict (h : HomeAssistant) : @World Sample.strict :=
  {| self := entity_full_strict; hass := h; awaited := []; log := [];
     template_attrs := [] |}.

(** A base entity that advertises a target-temperature range, which no
    script group stands for. *)
Definition base_with_range : ClimateEntity.t := {|
  ClimateEntity.entity_id := "climate.base";
  ClimateEntity.supported_features :=
    ClimateEntityFeature.TARGET_TEMPERATURE_RANGE;
  ClimateEntity.state := Some "cool";
  ClimateEntity.hvac_modes := ["off"; "cool"];
  ClimateEntity.preset_modes := None
|}.

Definition hass_with_range : HomeAssistant :=
  {| data_CLIMATE_DOMAIN := [("climate.base", base_with_range)] |}.

(** The strict entity after a render that delivered ["heat"]. *)
Definition world_heat : @World Sample.strict :=
  snd (@_update_state Sample.strict (ResultStr "heat")
         (world_strict Sample.hass_empty)).

(** The full entity after a service call. *)
Definition world_after_call : @World Sample.lenient :=
  snd (@perform Sample.const Sample.lenient call_turn_on
         (snd (set__context (Some "ctx")
                 (Sample.world_of Sample.entity_full Sample.hass_with_base)))).

End SampleMore.

(** * Properties *)

(** ** Dictionaries *)

Section DictFacts.

Context {V : Type}.

Implicit Types (d : dict V) (k : string) (v : V).

Lemma contains_In_keys d k : contains d k = true <-> In k (keys d).
Proof.
  unfold contains.
  induction d as [|[k' v'] d IH]; simpl.
  - split; [discriminate | tauto].
  - destruct (String.eqb_spec k k') as [->|Hne].
    + split; auto.
    + rewrite IH. split; [auto | intros [Heq|Hin]; [congruence | exact Hin]].
Qed.

Lemma contains_false_not_In d k : contains d k = false <-> ~ In k (keys d).
Proof.
  rewrite <- contains_In_keys. destruct (contains d k); split; congruence.
Qed.

Lemma contains_get d k : contains d k = true <-> exists v, get d k = Some v.
Proof.
  unfold contains. destruct (get d k) as [v|].
  - split; eauto.
  - split; [discriminate | intros [v Hv]; discriminate].
Qed.

Lemma getitem_get d k v : get d k = Some v -> getitem d k = inr v.
Proof. unfold getitem. intros ->. reflexivity. Qed.

Lemma truthy_nonempty d : truthy d = true <-> d <> [].
Proof. destruct d; simpl; split; congruence. Qed.

Lemma truthy_false_empty d : truthy d = false <-> d = [].
Proof. destruct d; simpl; split; congruence. Qed.

Lemma keys_set d k v :
  keys (set d k v) = if contains d k then keys d else keys d ++ [k].
Proof.
  unfold contains.
  induction d as [|[k' v'] d IH]; simpl; [reflexivity|].
  destruct (String.eqb k k'); simpl; [reflexivity|].
  rewrite IH. destruct (get d k); reflexivity.
Qed.

Lemma truthy_set d k v : truthy (set d k v) = true.
Proof. destruct d as [|[k' v'] d]; simpl; [|destruct (String.eqb k k')]; reflexivity. Qed.

Lemma keys_fold_set {A : Type} (f : A -> V) (src : dict A) :
  forall acc : dict V,
    NoDup (keys acc) ->
    NoDup (keys (fold_left (fun a kv => set a (fst kv) (f (snd kv))) src acc))
    /\ (forall k,
          In k (keys (fold_left (fun a kv => set a (fst kv) (f (snd kv))) src acc))
          <-> In k (keys acc) \/ In k (keys src))
    /\ (NoDup (keys acc ++ keys src) ->
        keys (fold_left (fun a kv => set a (fst kv) (f (snd kv))) src acc)
        = keys acc ++ keys src).
Proof.
  induction src as [|[k0 a0] src IH]; intros acc Hnd; simpl.
  - repeat split; auto.
    + intros [H|[]]; exact H.
    + intros _. now rewrite app_nil_r.
  - assert (Hset : NoDup (keys (set acc k0 (f a0)))).
    { rewrite keys_set. destruct (contains acc k0) eqn:Hc; [exact Hnd|].
      apply contains_false_not_In in Hc.
      apply NoDup_app; [exact Hnd | repeat constructor; auto |].
      intros x Hx [<-|[]]. contradiction. }
    destruct (IH _ Hset) as (IH1 & IH2 & IH3).
    split; [exact IH1|]. split.
    + intros k. rewrite IH2, keys_set.
      destruct (contains acc k0) eqn:Hc.
      * apply contains_In_keys in Hc.
        split; [intros [H|H]; auto | intros [H|[<-|H]]; auto].
      * rewrite in_app_iff. simpl. tauto.
    + intros Hall.
      assert (Hk0 : contains acc k0 = false).
      { apply contains_false_not_In. intros Hin.
        apply NoDup_remove_2 in Hall. apply Hall.
        apply in_or_app. left. exact Hin. }
      rewrite IH3; rewrite keys_set, Hk0.
      * now rewrite <- app_assoc.
      * rewrite <- app_assoc. exact Hall.
Qed.

End DictFacts.

Lemma keys_comprehension_NoDup {A B : Type} (f : A -> B) (src : dict A) :
  NoDup (keys (comprehension f src)).
Proof. apply (keys_fold_set f src []). constructor. Qed.

Lemma keys_comprehension_In {A B : Type} (f : A -> B) (src : dict A) k :
  In k (keys (comprehension f src)) <-> In k (keys src).
Proof.
  unfold comprehension, items.
  rewrite (proj1 (proj2 (keys_fold_set f src [] (NoDup_nil _)))).
  simpl. tauto.
Qed.

Lemma keys_comprehension {A B : Type} (f : A -> B) (src : dict A) :
  NoDup (keys src) -> keys (comprehension f src) = keys src.
Proof.
  intros H.
  apply (proj2 (proj2 (keys_fold_set f src [] (NoDup_nil _)))). exact H.
Qed.

Lemma truthy_fold_set {A B : Type} (f : A -> B) (src : dict A) :
  forall acc : dict B,
    truthy acc = true ->
    truthy (fold_left (fun a kv => set a (fst kv) (f (snd kv))) src acc) = true.
Proof.
  induction src as [|[k a] src IH]; intros acc Hacc; simpl; [exact Hacc|].
  apply IH, truthy_set.
Qed.

Lemma truthy_comprehension {A B : Type} (f : A -> B) (src : dict A) :
  truthy (comprehension f src) = truthy src.
Proof.
  unfold comprehension, items.
  destruct src as [|[k a] src]; [reflexivity|].
  cbn [fold_left truthy]. apply truthy_fold_set, truthy_set.
Qed.

(** ** Construction keeps the configured names *)

Section ConstructionFacts.

Context {host : Host}.

Lemma scripts_of_truthy name configured :
  truthy (scripts_of name configured) = truthy configured.
Proof. apply truthy_comprehension. Qed.

Lemma scripts_of_keys_In name configured k :
  In k (keys (scripts_of name configured)) <-> In k (keys configured).
Proof. apply keys_comprehension_In. Qed.

Lemma scripts_of_keys name configured :
  NoDup (keys configured) ->
  keys (scripts_of name configured) = keys configured.
Proof. apply keys_comprehension. Qed.

Lemma __init___fields config name entity :
  __init__ config name = inr entity ->
  _state entity = None
  /\ (exists t, Template___init__ (CONF_STATE config) = inr t
                /\ _state_template entity = Some t)
  /\ _base_climate_entity_id entity = CONF_BASE_CLIMATE_ENTITY_ID config
  /\ _preset_mode_scripts entity
     = scripts_of name (CONF_PRESET_MODE_SCRIPTS config)
  /\ _hvac_mode_scripts entity
     = scripts_of name (CONF_HVAC_MODE_SCRIPTS config).
Proof.
  unfold __init__.
  destruct (Template___init__ (CONF_STATE config)) as [e|t] eqn:Ht;
    [discriminate|].
  intros [= <-]. simpl. repeat split; eauto.
Qed.

Lemma sample_entity_full :
  @__init__ Sample.lenient Sample.config_full "virtual"
  = inr Sample.entity_full.
Proof. reflexivity. Qed.

Lemma sample_entity_base_only :
  @__init__ Sample.lenient Sample.config_base_only "virtual"
  = inr Sample.entity_base_only.
Proof. reflexivity. Qed.

Lemma sample_entity_bare :
  @__init__ Sample.lenient Sample.config_bare "virtual"
  = inr Sample.entity_bare.
Proof. reflexivity. Qed.

End ConstructionFacts.

(** ** Read properties *)

Section ReadFacts.

Context {const : Const} {host : Host}.

Implicit Types (self : TemplateClimate) (hass : HomeAssistant).

(** The base entity resolves exactly when a non-empty id is configured and
    the climate component knows it. *)
Lemma _base_climate_entity_Some self hass base :
  _base_climate_entity self hass = Some base <->
  exists entity_id,
    _base_climate_entity_id self = Some entity_id
    /\ entity_id <> EmptyString
    /\ get_entity (data_CLIMATE_DOMAIN hass) entity_id = Some base.
Proof.
  unfold _base_climate_entity, truthy_str.
  destruct (_base_climate_entity_id self) as [eid|].
  - destruct (String.eqb_spec eid EmptyString) as [->|Hne]; simpl.
    + split; [discriminate|]. intros (x & [= <-] & Hx & _). congruence.
    + destruct (get_entity (data_CLIMATE_DOMAIN hass) eid) as [b|] eqn:Hb.
      * split.
        -- intros [= <-]. eauto.
        -- intros (x & [= <-] & _ & Hx). congruence.
      * split; [discriminate|]. intros (x & [= <-] & _ & Hx). congruence.
  - split; [discriminate|]. intros (x & Hx & _). discriminate.
Qed.

Lemma _base_climate_entity_unconfigured self hass :
  _base_climate_entity_id self = None -> _base_climate_entity self hass = None.
Proof. unfold _base_climate_entity. intros ->. reflexivity. Qed.

Lemma lor_flag_if (support flag : Z) (present : bool) :
  (if present then Z.lor support flag else support)
  = Z.lor support (flag_if present flag).
Proof. destruct present; simpl; [reflexivity | now rewrite Z.lor_0_r]. Qed.

Lemma supported_features_fold self hass :
  supported_features self hass
  = fold_left Z.lor (script_group_flags self) (base_features self hass).
Proof.
  unfold supported_features, base_features, script_group_flags.
  cbn [fold_left].
  rewrite !lor_flag_if.
  destruct (_base_climate_entity self hass); reflexivity.
Qed.

Lemma fold_lor_testbit (flags : list Z) :
  forall (acc : Z) (n : Z),
    Z.testbit (fold_left Z.lor flags acc) n
    = Z.testbit acc n || existsb (fun f => Z.testbit f n) flags.
Proof.
  induction flags as [|f flags IH]; intros acc n; simpl.
  - now rewrite orb_false_r.
  - rewrite IH, Z.lor_spec, orb_assoc. reflexivity.
Qed.

(** Bit by bit: a feature is advertised exactly when the base entity
    advertises it or a configured script group carries it. *)
Lemma supported_features_testbit self hass n :
  Z.testbit (supported_features self hass) n
  = Z.testbit (base_features self hass) n
    || existsb (fun f => Z.testbit f n) (script_group_flags self).
Proof. rewrite supported_features_fold. apply fold_lor_testbit. Qed.

Lemma land_lor_absorb (a f : Z) : Z.land (Z.lor a f) f = f.
Proof.
  apply Z.bits_inj'. intros n _.
  rewrite Z.land_spec, Z.lor_spec.
  destruct (Z.testbit a n), (Z.testbit f n); reflexivity.
Qed.

Lemma fold_lor_includes (flags : list Z) (f : Z) :
  forall acc, In f flags \/ Z.land acc f = f ->
              Z.land (fold_left Z.lor flags acc) f = f.
Proof.
  induction flags as [|g flags IH]; intros acc H; simpl.
  - destruct H as [[]|H]; exact H.
  - apply IH. destruct H as [[->|H]|H].
    + right. apply land_lor_absorb.
    + left. exact H.
    + right. apply Z.bits_inj'. intros n _.
      apply (f_equal (fun z => Z.testbit z n)) in H.
      rewrite Z.land_spec in H. rewrite Z.land_spec, Z.lor_spec.
      destruct (Z.testbit acc n), (Z.testbit g n), (Z.testbit f n);
        simpl in *; congruence.
Qed.

(** C2: [supported_features] is the bitwise OR of what the base entity
    advertises with one flag per script group that exists: turn-on,
    turn-off, target-temperature and target-humidity by presence of the
    service-script key, fan-mode, preset-mode, swing-mode and
    swing-horizontal-mode by a non-empty mapping.  The base part is the
    [supported_features] of the entity that [hass.data] holds under the
    configured, non-empty id, and zero when no such entity is there.  In
    particular a turn-on service script puts the turn-on flag into the result
    whatever the base entity advertises. *)
Theorem supported_features_or_of_groups self hass advertised :
  (exists entity_id base,
      _base_climate_entity_id self = Some entity_id
      /\ entity_id <> EmptyString
      /\ get_entity (data_CLIMATE_DOMAIN hass) entity_id = Some base
      /\ advertised = ClimateEntity.supported_features base)
  \/ ((forall entity_id,
          _base_climate_entity_id self = Some entity_id ->
          entity_id <> EmptyString ->
          get_entity (data_CLIMATE_DOMAIN hass) entity_id = None)
      /\ advertised = 0) ->
  supported_features self hass
  = Z.lor advertised
      (Z.lor
         (flag_if (contains (_service_scripts self) CONF_TURN_ON_SCRIPT)
            ClimateEntityFeature.TURN_ON)
      (Z.lor
         (flag_if (contains (_service_scripts self) CONF_TURN_OFF_SCRIPT)
            ClimateEntityFeature.TURN_OFF)
      (Z.lor
         (flag_if (contains (_service_scripts self) CONF_SET_TEMPERATURE_SCRIPT)
            ClimateEntityFeature.TARGET_TEMPERATURE)
      (Z.lor
         (flag_if (contains (_service_scripts self) CONF_SET_HUMIDITY_SCRIPT)
            ClimateEntityFeature.TARGET_HUMIDITY)
      (Z.lor
         (flag_if (truthy (_fan_mode_scripts self))
            ClimateEntityFeature.FAN_MODE)
      (Z.lor
         (flag_if (truthy (_preset_mode_scripts self))
            ClimateEntityFeature.PRESET_MODE)
      (Z.lor
         (flag_if (truthy (_swing_mode_scripts self))
            ClimateEntityFeature.SWING_MODE)
         (flag_if (truthy (_swing_horizontal_mode_scripts self))
            ClimateEntityFeature.SWING_HORIZONTAL_MODE))))))))
  /\ (contains (_service_scripts self) CONF_TURN_ON_SCRIPT = true ->
      Z.land (supported_features self hass) ClimateEntityFeature.TURN_ON
      = ClimateEntityFeature.TURN_ON).
Proof.
  intros Hbase.
  assert (Hadv : base_features self hass = advertised).
  { unfold base_features.
    destruct Hbase as [(entity_id & base & Hid & Hne & Hget & ->)
                      | (Hnone & ->)].
    - rewrite (proj2 (_base_climate_entity_Some self hass base)); eauto.
    - destruct (_base_climate_entity self hass) as [base|] eqn:Hres;
        [|reflexivity].
      apply _base_climate_entity_Some in Hres.
      destruct Hres as (entity_id & Hid & Hne & Hget).
      rewrite (Hnone entity_id Hid Hne) in Hget. discriminate. }
  split.
  - rewrite supported_features_fold, Hadv. unfold script_group_flags.
    cbn [fold_left]. rewrite <- !Z.lor_assoc. reflexivity.
  - intros Hon. rewrite supported_features_fold.
    apply fold_lor_includes. left.
    unfold script_group_flags. rewrite Hon. simpl. auto.
Qed.

(** C4: a non-empty preset-mode script mapping makes [preset_modes] the list
    of that mapping's keys, whatever base entity is configured and whatever
    the host knows about it; a name is in the list exactly when the mapping
    has it. *)
Theorem preset_modes_local_keys self hass :
  _preset_mode_scripts self <> [] ->
  preset_modes self hass = Some (keys (_preset_mode_scripts self))
  /\ (forall k,
        In k (keys (_preset_mode_scripts self))
        <-> contains (_preset_mode_scripts self) k = true).
Proof.
  intros Hne. split.
  - unfold preset_modes.
    now rewrite (proj2 (truthy_nonempty _) Hne).
  - intros k. symmetry. apply contains_In_keys.
Qed.

(** C6: [hvac_modes] is the key list of a non-empty HVAC-mode script
    mapping; with an empty mapping it is the base entity's [hvac_modes] when
    a base entity resolves, and the empty list when none does. *)
Theorem hvac_modes_precedence self hass :
  (_hvac_mode_scripts self <> [] ->
   hvac_modes self hass = keys (_hvac_mode_scripts self))
  /\ (_hvac_mode_scripts self = [] ->
      forall base,
        _base_climate_entity self hass = Some base ->
        hvac_modes self hass = ClimateEntity.hvac_modes base)
  /\ (_hvac_mode_scripts self = [] ->
      _base_climate_entity self hass = None ->
      hvac_modes self hass = []).
Proof.
  unfold hvac_modes. repeat split.
  - intros Hne. now rewrite (proj2 (truthy_nonempty _) Hne).
  - intros -> base ->. reflexivity.
  - intros -> ->. reflexivity.
Qed.

(** C10: with no script mapping and no resolving base entity the two mode
    lists fall back differently: [hvac_modes] is the empty list,
    [preset_modes] is [None]. *)
Theorem mode_list_defaults_differ self hass :
  _base_climate_entity self hass = None ->
  (_hvac_mode_scripts self = [] -> hvac_modes self hass = [])
  /\ (_preset_mode_scripts self = [] ->
      preset_modes self hass = None
      /\ preset_modes self hass <> Some []).
Proof.
  intros Hbase. unfold hvac_modes, preset_modes. rewrite Hbase. split.
  - intros ->. reflexivity.
  - intros ->. simpl. split; [reflexivity | discriminate].
Qed.

(** In terms of the configuration: the constructed mappings are non-empty
    when the configured ones are, and list the configured names in their
    order. *)
Lemma mode_lists_of_configuration config name entity hass :
  __init__ config name = inr entity ->
  (CONF_PRESET_MODE_SCRIPTS config <> [] ->
   NoDup (keys (CONF_PRESET_MODE_SCRIPTS config)) ->
   preset_modes entity hass = Some (keys (CONF_PRESET_MODE_SCRIPTS config)))
  /\ (CONF_HVAC_MODE_SCRIPTS config <> [] ->
      NoDup (keys (CONF_HVAC_MODE_SCRIPTS config)) ->
      hvac_modes entity hass = keys (CONF_HVAC_MODE_SCRIPTS config)).
Proof.
  intros H. apply __init___fields in H.
  destruct H as (_ & _ & _ & Hp & Hh).
  unfold preset_modes, hvac_modes. rewrite Hp, Hh, !scripts_of_truthy.
  split; intros Hne Hnd; rewrite (proj2 (truthy_nonempty _) Hne);
    now rewrite scripts_of_keys.
Qed.

End ReadFacts.

(** ** Write methods *)

Section WriteFacts.

Context {const : Const} {host : Host}.

Implicit Types (w : World) (call : ClimateCall).

(** The write-path policy in one piece: run the applicable script, if there
    is one, with the call's run variables and the entity's context; once it
    has returned, forward the call to the base entity, if one resolves. *)
Definition dispatch_policy call : Coro unit :=
  fun w =>
    let after_script :=
      match applicable_script (self w) call with
      | Some script =>
          await_script script (run_variables_of call) (_context (self w)) w
      | None => (inr tt, w)
      end in
    match after_script with
    | (inl e, w') => (inl e, w')
    | (inr _, w') =>
        match _base_climate_entity (self w') (hass w') with
        | Some base => await_base base call w'
        | None => (inr tt, w')
        end
    end.

Lemma await_script_frame script vars context w :
  self (snd (await_script script vars context w)) = self w
  /\ log (snd (await_script script vars context w)) = log w
  /\ template_attrs (snd (await_script script vars context w))
     = template_attrs w.
Proof.
  unfold await_script.
  destruct (Script_async_run script vars context (hass w)); simpl; auto.
Qed.

Lemma await_base_frame base call w :
  self (snd (await_base base call w)) = self w
  /\ log (snd (await_base base call w)) = log w
  /\ template_attrs (snd (await_base base call w)) = template_attrs w.
Proof.
  unfold await_base.
  destruct (ClimateEntity_async_call base call (hass w)); simpl; auto.
Qed.

(** One shape fits the ten methods: a guarded script run, then a guarded
    call on the base entity. *)
Lemma guarded_script_then_base
  (scripts : TemplateClimate -> dict Script) (key : string)
  (vars : option (dict PyValue)) call w :
  bind (attr (fun s => contains (scripts s) key))
    (fun has_script =>
       bind
         (when has_script
            (bind (attr scripts) (fun d =>
             bind (lift (getitem d key)) (fun script =>
             bind (attr _context) (fun context =>
             await_script script vars context)))))
         (fun _ =>
            bind (prop _base_climate_entity) (fun base =>
            when (truthy_obj base)
              (bind (prop _base_climate_entity) (fun base =>
               bind (deref base) (fun target =>
               await_base target call)))))) w
  = let after_script :=
      match get (scripts (self w)) key with
      | Some script => await_script script vars (_context (self w)) w
      | None => (inr tt, w)
      end in
    match after_script with
    | (inl e, w') => (inl e, w')
    | (inr _, w') =>
        match _base_climate_entity (self w') (hass w') with
        | Some base => await_base base call w'
        | None => (inr tt, w')
        end
    end.
Proof.
  unfold bind, attr, prop, when, lift, ret, getitem, contains.
  cbv beta iota zeta.
  destruct (get (scripts (self w)) key) as [script|] eqn:Hget;
    cbv beta iota zeta.
  - rewrite Hget.
    destruct (await_script script vars (_context (self w)) w) as [[e|[]] w'];
      [reflexivity|].
    destruct (_base_climate_entity (self w') (hass w')) eqn:Hbase;
      cbn [truthy_obj]; cbv beta iota; rewrite ?Hbase; reflexivity.
  - destruct (_base_climate_entity (self w) (hass w)) eqn:Hbase;
      cbn [truthy_obj]; cbv beta iota; rewrite ?Hbase; reflexivity.
Qed.

Lemma perform_dispatch_policy call w :
  perform call w = dispatch_policy call w.
Proof.
  destruct call; cbn [perform];
    unfold dispatch_policy; cbn [applicable_script run_variables_of].
  - apply (guarded_script_then_base _service_scripts).
  - apply (guarded_script_then_base _service_scripts).
  - apply (guarded_script_then_base _fan_mode_scripts).
  - apply (guarded_script_then_base _hvac_mode_scripts).
  - apply (guarded_script_then_base _swing_mode_scripts).
  - apply (guarded_script_then_base _swing_horizontal_mode_scripts).
  - apply (guarded_script_then_base _preset_mode_scripts).
  - apply (guarded_script_then_base _service_scripts).
  - apply (guarded_script_then_base _service_scripts).
  - apply (guarded_script_then_base _service_scripts).
Qed.

Lemma perform_frame call w :
  self (snd (perform call w)) = self w
  /\ log (snd (perform call w)) = log w
  /\ template_attrs (snd (perform call w)) = template_attrs w.
Proof.
  rewrite perform_dispatch_policy. unfold dispatch_policy.
  destruct (applicable_script (self w) call) as [script|].
  - destruct (await_script_frame script (run_variables_of call)
                (_context (self w)) w) as (Hs & Hl & Ht).
    destruct (await_script script (run_variables_of call)
                (_context (self w)) w) as [[e|[]] w']; simpl in *; auto.
    destruct (_base_climate_entity (self w') (hass w')) as [base|];
      simpl; auto.
    destruct (await_base_frame base call w') as (Hs' & Hl' & Ht').
    repeat split; congruence.
  - destruct (_base_climate_entity (self w) (hass w)) as [base|];
      simpl; auto.
    apply await_base_frame.
Qed.

(** When only a script applies, only the script runs. *)
Lemma perform_script_only call w script :
  applicable_script (self w) call = Some script ->
  (forall hass', _base_climate_entity (self w) hass' = None) ->
  perform call w
  = await_script script (run_variables_of call) (_context (self w)) w.
Proof.
  intros Hs Hb. rewrite perform_dispatch_policy. unfold dispatch_policy.
  rewrite Hs.
  destruct (await_script_frame script (run_variables_of call)
              (_context (self w)) w) as (Hself & _).
  destruct (await_script script (run_variables_of call)
              (_context (self w)) w) as [[e|[]] w']; [reflexivity|].
  simpl in Hself. now rewrite Hself, Hb.
Qed.

(** When only the base entity resolves, only the base entity is called. *)
Lemma perform_base_only call w base :
  applicable_script (self w) call = None ->
  _base_climate_entity (self w) (hass w) = Some base ->
  perform call w = await_base base call w.
Proof.
  intros Hs Hb. rewrite perform_dispatch_policy. unfold dispatch_policy.
  now rewrite Hs, Hb.
Qed.

(** A script that raises ends the method: the exception leaves it, and the
    base entity is not called. *)
Lemma perform_script_raises call w script e hass1 :
  applicable_script (self w) call = Some script ->
  Script_async_run script (run_variables_of call) (_context (self w)) (hass w)
  = (inl e, hass1) ->
  fst (perform call w) = inl e
  /\ awaited (snd (perform call w))
     = awaited w
       ++ [RunScript script (run_variables_of call) (_context (self w))].
Proof.
  intros Hs Hrun. rewrite perform_dispatch_policy. unfold dispatch_policy.
  rewrite Hs. unfold await_script. rewrite Hrun. simpl. auto.
Qed.

(** C3: for each of the ten write calls, when a script applies and a base
    entity resolves, both are awaited and in this order: first the script,
    with the call's run variables and the entity's context, and, once it has
    returned, the same call with the same arguments on the base entity,
    which starts from what the script left behind.  The outcome of the method
    is the outcome of the base entity's call. *)
Theorem write_runs_script_then_base call w script hass1 base :
  applicable_script (self w) call = Some script ->
  Script_async_run script (run_variables_of call) (_context (self w)) (hass w)
  = (inr tt, hass1) ->
  _base_climate_entity (self w) hass1 = Some base ->
  perform call w
  = (fst (ClimateEntity_async_call base call hass1),
     {| self := self w;
        hass := snd (ClimateEntity_async_call base call hass1);
        awaited :=
          awaited w
          ++ [RunScript script (run_variables_of call) (_context (self w));
              BaseCall base call];
        log := log w;
        template_attrs := template_attrs w |}).
Proof.
  intros Hs Hrun Hb. rewrite perform_dispatch_policy. unfold dispatch_policy.
  rewrite Hs. unfold await_script. rewrite Hrun. cbn [self hass].
  rewrite Hb. unfold await_base. cbn [self hass awaited log template_attrs].
  destruct (ClimateEntity_async_call base call hass1) as [outcome hass2].
  cbn [fst snd]. now rewrite <- app_assoc.
Qed.

(** C7: [async_toggle] on an entity with no toggle script and no base entity
    configured returns normally and changes nothing: no script run, no
    forwarded call, the entity and the shared object as they were. *)
Theorem async_toggle_without_script_and_base w :
  contains (_service_scripts (self w)) CONF_TOGGLE_SCRIPT = false ->
  _base_climate_entity_id (self w) = None ->
  async_toggle w = (inr tt, w).
Proof.
  intros Hs Hb.
  change (async_toggle w) with (perform call_toggle w).
  rewrite perform_dispatch_policy. unfold dispatch_policy.
  cbn [applicable_script].
  unfold contains in Hs.
  destruct (get (_service_scripts (self w)) CONF_TOGGLE_SCRIPT);
    [discriminate|].
  now rewrite (_base_climate_entity_unconfigured _ _ Hb).
Qed.

(** *** The state-template callback *)

Lemma _update_state_fields result w :
  let s := self (snd (_update_state result w)) in
  super s = TemplateEntity__update_state (super (self w)) result
  /\ _context s = _context (self w)
  /\ _attr_should_poll s = _attr_should_poll (self w)
  /\ _attr_temperature_unit s = _attr_temperature_unit (self w)
  /\ _base_climate_entity_id s = _base_climate_entity_id (self w)
  /\ _state_template s = _state_template (self w)
  /\ _service_scripts s = _service_scripts (self w)
  /\ _hvac_mode_scripts s = _hvac_mode_scripts (self w)
  /\ _preset_mode_scripts s = _preset_mode_scripts (self w)
  /\ _fan_mode_scripts s = _fan_mode_scripts (self w)
  /\ _swing_mode_scripts s = _swing_mode_scripts (self w)
  /\ _swing_horizontal_mode_scripts s
     = _swing_horizontal_mode_scripts (self w).
Proof.
  destruct result as [err|s|[e|s]]; cbn; try (repeat split; reflexivity).
  destruct e; cbn; repeat split; reflexivity.
Qed.

(** Registering the state template leaves the entity as it was. *)
Lemma async_added_to_hass_self w :
  self (snd (async_added_to_hass w)) = self w.
Proof.
  unfold async_added_to_hass, add_template_attribute, bind, attr, lift,
    deref, ret, raise.
  cbv beta iota zeta.
  destruct (_state_template (self w)) as [t|]; [|reflexivity].
  cbn [str_add].
  destruct (str_add _ (template t)) as [e|text]; [reflexivity|].
  destruct (Template___init__ (Some text)); reflexivity.
Qed.

(** The overridden [add_template_attribute] leaves everything but the
    registered templates as it was, and registers at most one. *)
Lemma add_template_attribute_frame attribute tpl w :
  self (snd (add_template_attribute attribute tpl w)) = self w
  /\ hass (snd (add_template_attribute attribute tpl w)) = hass w
  /\ awaited (snd (add_template_attribute attribute tpl w)) = awaited w
  /\ log (snd (add_template_attribute attribute tpl w)) = log w
  /\ (template_attrs (snd (add_template_attribute attribute tpl w))
      = template_attrs w
      \/ exists tracked,
           template_attrs (snd (add_template_attribute attribute tpl w))
           = template_attrs w ++ [(attribute, tracked)]).
Proof.
  unfold add_template_attribute, bind, lift, deref, ret, raise.
  cbv beta iota zeta.
  destruct tpl as [t|]; [|cbn; repeat split; now left].
  cbn [str_add].
  destruct (str_add _ (template t)) as [e|text];
    [cbn; repeat split; now left|].
  destruct (Template___init__ (Some text)) as [e|tracked]; cbn;
    [repeat split; now left|].
  repeat split. right. exists tracked. reflexivity.
Qed.

(** An exception of [__str__] that is not a [ValueError] is not caught. *)
Lemma _update_state_other_exception w e :
  is_ValueError e = false ->
  fst (_update_state (ResultObject (inl e)) w) = inl e.
Proof. intros He. cbn. rewrite He. reflexivity. Qed.

(** C5: a render that delivers a [TemplateError] makes the callback store
    [None], log one error and return normally; so does a result whose
    conversion to a string raises [ValueError].  A render that delivers a
    value makes the callback store the value's string and log nothing. *)
Theorem _update_state_outcomes w :
  (forall err,
      let r := _update_state (ResultTemplateError err) w in
      fst r = inr tt
      /\ _state (self (snd r)) = None
      /\ log (snd r)
         = log w ++ [LogError "Could not render state template: %s"
                       (ResultTemplateError err)])
  /\ (forall msg,
         let r := _update_state (ResultObject (inl (ValueError msg))) w in
         fst r = inr tt
         /\ _state (self (snd r)) = None
         /\ log (snd r)
            = log w ++ [LogError "Received invalid state: %s"
                          (ResultObject (inl (ValueError msg)))])
  /\ (forall s,
         let r := _update_state (ResultStr s) w in
         fst r = inr tt
         /\ _state (self (snd r)) = Some s
         /\ log (snd r) = log w)
  /\ (forall s,
         let r := _update_state (ResultObject (inr s)) w in
         fst r = inr tt
         /\ _state (self (snd r)) = Some s
         /\ log (snd r) = log w).
Proof.
  split; [|split; [|split]]; intros x r; subst r;
    unfold _update_state, bind, try_except, lift, super__update_state,
      _LOGGER_error, set__state;
    cbn; auto.
Qed.

(** C9: a write method hands back the entity exactly as it found it, with
    every attribute (the stored state and the six script mappings among
    them) unchanged, whatever the scripts and the base entity do and
    whether or not an exception leaves the method; registering the template
    does not touch it either.  The callback is where the stored state is
    assigned, and the callback leaves the script mappings alone. *)
Theorem write_methods_leave_entity_unchanged w :
  (forall call, self (snd (perform call w)) = self w)
  /\ self (snd (async_added_to_hass w)) = self w
  /\ (forall s, _state (self (snd (_update_state (ResultStr s) w))) = Some s)
  /\ (forall result,
         let s := self (snd (_update_state result w)) in
         _service_scripts s = _service_scripts (self w)
         /\ _hvac_mode_scripts s = _hvac_mode_scripts (self w)
         /\ _preset_mode_scripts s = _preset_mode_scripts (self w)
         /\ _fan_mode_scripts s = _fan_mode_scripts (self w)
         /\ _swing_mode_scripts s = _swing_mode_scripts (self w)
         /\ _swing_horizontal_mode_scripts s
            = _swing_horizontal_mode_scripts (self w)).
Proof.
  split; [intros call; apply perform_frame|].
  split; [apply async_added_to_hass_self|].
  split; [reflexivity|].
  intros result. pose proof (_update_state_fields result w) as H.
  cbv zeta in *. tauto.
Qed.

End WriteFacts.

(** ** The [state] property over an entity's life *)

Section StateFacts.

Context {const : Const} {host : Host}.

Implicit Types (w : World) (config : ConfigType) (name : string).

(** Whatever the configuration, a constructed entity holds a [Template]
    object, so [state] answers with the stored state and never reaches the
    base entity. *)
Lemma state_of_constructed config name entity hass :
  __init__ config name = inr entity ->
  state entity hass = _state entity.
Proof.
  intros H. apply __init___fields in H.
  destruct H as (_ & (t & _ & Ht) & _).
  unfold state. now rewrite Ht.
Qed.

Lemma reachable_has_template config name w :
  reachable config name w ->
  exists t, Template___init__ (CONF_STATE config) = inr t
            /\ _state_template (self w) = Some t.
Proof.
  induction 1 as [entity hass0 Hinit | w Hr IH | w tracked result Hr IH Hin
                 | w context call Hr IH | w hass' Hr IH
                 | w attribute inherited Hr IH].
  - apply __init___fields in Hinit. simpl. tauto.
  - rewrite async_added_to_hass_self. exact IH.
  - destruct (_update_state_fields result w) as (_ & _ & _ & _ & _ & -> & _).
    exact IH.
  - destruct (perform_frame call (snd (set__context context w))) as (-> & _).
    exact IH.
  - exact IH.
  - destruct (add_template_attribute_frame attribute (Some inherited) w)
      as (-> & _).
    exact IH.
Qed.

Lemma state_of_reachable config name w :
  reachable config name w ->
  state (self w) (hass w) = _state (self w).
Proof.
  intros H. destruct (reachable_has_template _ _ _ H) as (t & _ & Ht).
  unfold state. now rewrite Ht.
Qed.

End StateFacts.

(** ** The [state] property and the configuration *)

Section StatePrecedence.

Context {const : Const} {host : Host}.

(** Read against the attribute [_state_template], the property has the
    three-way precedence: stored state, else base entity, else [None]. *)
Lemma state_precedence_on_attribute (self : TemplateClimate) hass :
  (forall t, _state_template self = Some t -> state self hass = _state self)
  /\ (_state_template self = None ->
      forall base,
        _base_climate_entity self hass = Some base ->
        state self hass = ClimateEntity.state base)
  /\ (_state_template self = None ->
      _base_climate_entity self hass = None ->
      state self hass = None).
Proof.
  unfold state. repeat split.
  - intros t ->. reflexivity.
  - intros -> base ->. reflexivity.
  - intros -> ->. reflexivity.
Qed.

(** The constructor never leaves [_state_template] at [None]. *)
Lemma __init___always_holds_a_template config name entity :
  __init__ config name = inr entity -> _state_template entity <> None.
Proof.
  intros H. apply __init___fields in H.
  destruct H as (_ & (t & _ & ->) & _). discriminate.
Qed.

End StatePrecedence.

(** C1, at the input where the code leaves the claim: no state template, a
    base entity [climate.base] that resolves and reports ["heat"].  A host
    that accepts the missing template text builds the entity, and [state]
    then answers with the stored state, [None], not with the base entity's
    state; a host that rejects the missing text builds no entity at all. *)
Theorem state_without_template_skips_base :
  @__init__ Sample.lenient Sample.config_base_only "virtual"
  = inr Sample.entity_base_only
  /\ _base_climate_entity Sample.entity_base_only Sample.hass_with_base
     = Some Sample.base
  /\ ClimateEntity.state Sample.base = Some "heat"
  /\ state Sample.entity_base_only Sample.hass_with_base = None
  /\ @__init__ Sample.strict Sample.config_base_only "virtual"
     = inl (TypeError "Expected template to be a string").
Proof. repeat split. Qed.

(** ** Worked inputs *)


Lemma preset_modes_local_keys_witness :
  preset_modes Sample.entity_full Sample.hass_with_base
  = Some ["away"; "home"].
Proof.
  refine (proj1 (@preset_modes_local_keys Sample.lenient
                   Sample.entity_full Sample.hass_with_base _)).
  discriminate.
Defined.

Lemma hvac_modes_precedence_witness :
  hvac_modes Sample.entity_full Sample.hass_with_base = ["heat"; "cool"]
  /\ hvac_modes Sample.entity_base_only Sample.hass_with_base
     = ["off"; "heat"]
  /\ hvac_modes Sample.entity_base_only Sample.hass_empty = [].
Proof.
  split; [|split].
  - refine (proj1 (@hvac_modes_precedence Sample.lenient
                     Sample.entity_full Sample.hass_with_base) _).
    discriminate.
  - refine (proj1 (proj2 (@hvac_modes_precedence Sample.lenient
                            Sample.entity_base_only Sample.hass_with_base))
              _ Sample.base _); reflexivity.
  - refine (proj2 (proj2 (@hvac_modes_precedence Sample.lenient
                            Sample.entity_base_only Sample.hass_empty))
              _ _); reflexivity.
Defined.

Lemma mode_list_defaults_differ_witness :
  hvac_modes Sample.entity_bare Sample.hass_with_base = []
  /\ preset_modes Sample.entity_bare Sample.hass_with_base = None.
Proof.
  pose proof (@mode_list_defaults_differ Sample.lenient
                Sample.entity_bare Sample.hass_with_base eq_refl) as [Hh Hp].
  split; [apply Hh | apply Hp]; reflexivity.
Defined.

Lemma write_runs_script_then_base_witness :
  awaited
    (snd (@perform Sample.const Sample.lenient (call_set_fan_mode "low")
            (Sample.world_of Sample.entity_full Sample.hass_with_base)))
  = [RunScript {| sequence := ["l"]; script_name := "virtual";
                  script_domain := CLIMATE_DOMAIN |} None None;
     BaseCall Sample.base (call_set_fan_mode "low")].
Proof.
  rewrite (@write_runs_script_then_base Sample.const Sample.lenient
             (call_set_fan_mode "low")
             (Sample.world_of Sample.entity_full Sample.hass_with_base)
             {| sequence := ["l"]; script_name := "virtual";
                script_domain := CLIMATE_DOMAIN |}
             Sample.hass_with_base Sample.base
             eq_refl eq_refl eq_refl).
  reflexivity.
Defined.

Lemma async_toggle_without_script_and_base_witness :
  @async_toggle Sample.const Sample.lenient
    (Sample.world_of Sample.entity_bare Sample.hass_with_base)
  = (inr tt, Sample.world_of Sample.entity_bare Sample.hass_with_base).
Proof.
  apply (@async_toggle_without_script_and_base Sample.const Sample.lenient);
    reflexivity.
Defined.


(** * Further properties *)

(** ** Lookup after assignment *)

Section DictLookupFacts.

Context {V : Type}.

Implicit Types (d : dict V) (k : string) (v : V).

Lemma get_set_same d k v : get (set d k v) k = Some v.
Proof.
  induction d as [|[k' v'] d IH]; simpl.
  - now rewrite String.eqb_refl.
  - destruct (String.eqb k k') eqn:Hk; simpl; rewrite Hk; [reflexivity|].
    exact IH.
Qed.

Lemma get_set_other d k k0 v : k <> k0 -> get (set d k0 v) k = get d k.
Proof.
  intros Hne.
  induction d as [|[k' v'] d IH]; simpl.
  - destruct (String.eqb_spec k k0); [contradiction | reflexivity].
  - destruct (String.eqb_spec k0 k') as [->|Hk0]; simpl.
    + destruct (String.eqb_spec k k'); [contradiction | reflexivity].
    + destruct (String.eqb_spec k k'); [reflexivity | exact IH].
Qed.

Lemma get_None_not_In d k : get d k = None <-> ~ In k (keys d).
Proof.
  rewrite <- contains_false_not_In. unfold contains.
  destruct (get d k); split; congruence.
Qed.

End DictLookupFacts.

Lemma get_fold_set {A B : Type} (f : A -> B) (src : dict A) :
  NoDup (keys src) ->
  forall (acc : dict B) k,
    get (fold_left (fun a kv => set a (fst kv) (f (snd kv))) src acc) k
    = match get src k with
      | Some a => Some (f a)
      | None => get acc k
      end.
Proof.
  induction src as [|[k0 a0] src IH]; intros Hnd acc k; simpl; [reflexivity|].
  simpl in Hnd. apply NoDup_cons_iff in Hnd. destruct Hnd as [Hk0 Hnd].
  rewrite (IH Hnd). simpl.
  destruct (String.eqb_spec k k0) as [->|Hne].
  - rewrite (proj2 (get_None_not_In src k0) Hk0). apply get_set_same.
  - destruct (get src k); [reflexivity|]. now apply get_set_other.
Qed.

Lemma get_comprehension {A B : Type} (f : A -> B) (src : dict A) k :
  NoDup (keys src) ->
  get (comprehension f src) k = option_map f (get src k).
Proof.
  intros Hnd. unfold comprehension, items.
  rewrite (get_fold_set f src Hnd). simpl.
  destruct (get src k); reflexivity.
Qed.

(** ** Write methods, case by case *)

Section WriteCases.

Context {const : Const} {host : Host}.

Implicit Types (w : World) (call : ClimateCall).

(** X1: each of the ten write methods is the same two-step policy applied to
    its own call: run the script that applies (the service script, or the
    script under the requested mode) with the call's run variables and the
    entity's context, and, if that returned, forward the call to the base
    entity when one resolves. *)
Theorem write_methods_follow_one_policy w :
  (forall kwargs,
      async_set_temperature kwargs w
      = dispatch_policy (call_set_temperature kwargs) w)
  /\ (forall humidity,
         async_set_humidity humidity w
         = dispatch_policy (call_set_humidity humidity) w)
  /\ (forall m, async_set_fan_mode m w
                = dispatch_policy (call_set_fan_mode m) w)
  /\ (forall m, async_set_hvac_mode m w
                = dispatch_policy (call_set_hvac_mode m) w)
  /\ (forall m, async_set_swing_mode m w
                = dispatch_policy (call_set_swing_mode m) w)
  /\ (forall m, async_set_swing_horizontal_mode m w
                = dispatch_policy (call_set_swing_horizontal_mode m) w)
  /\ (forall m, async_set_preset_mode m w
                = dispatch_policy (call_set_preset_mode m) w)
  /\ async_turn_on w = dispatch_policy call_turn_on w
  /\ async_turn_off w = dispatch_policy call_turn_off w
  /\ async_toggle w = dispatch_policy call_toggle w.
Proof.
  repeat split; intros;
    match goal with
    | |- _ = dispatch_policy ?c _ => exact (perform_dispatch_policy c w)
    end.
Qed.

(** X2: when the applicable script raises, the exception leaves the write
    method, the base entity is not called although it may resolve, and the
    script run is the only awaited call. *)
Theorem write_stops_when_script_raises call w script e hass1 :
  applicable_script (self w) call = Some script ->
  Script_async_run script (run_variables_of call) (_context (self w)) (hass w)
  = (inl e, hass1) ->
  perform call w
  = (inl e,
     {| self := self w; hass := hass1;
        awaited :=
          awaited w
          ++ [RunScript script (run_variables_of call) (_context (self w))];
        log := log w; template_attrs := template_attrs w |}).
Proof.
  intros Hs Hrun. rewrite perform_dispatch_policy. unfold dispatch_policy.
  rewrite Hs. unfold await_script. rewrite Hrun. reflexivity.
Qed.

(** X3: a call for which the entity has no script (a mode that is not a key
    of the mapping, a service without its script) is still forwarded to a
    resolving base entity, and nothing else is awaited. *)
Theorem write_without_script_forwards_to_base call w base :
  applicable_script (self w) call = None ->
  _base_climate_entity (self w) (hass w) = Some base ->
  perform call w
  = (fst (ClimateEntity_async_call base call (hass w)),
     {| self := self w;
        hass := snd (ClimateEntity_async_call base call (hass w));
        awaited := awaited w ++ [BaseCall base call];
        log := log w; template_attrs := template_attrs w |}).
Proof.
  intros Hs Hb. rewrite (perform_base_only _ _ _ Hs Hb).
  unfold await_base.
  destruct (ClimateEntity_async_call base call (hass w)); reflexivity.
Qed.

(** X4: with no base entity configured, a call that has a script runs that
    script and nothing else; the method's outcome is the script's. *)
Theorem write_without_base_runs_script_only call w script :
  applicable_script (self w) call = Some script ->
  _base_climate_entity_id (self w) = None ->
  perform call w
  = (fst (Script_async_run script (run_variables_of call)
            (_context (self w)) (hass w)),
     {| self := self w;
        hass := snd (Script_async_run script (run_variables_of call)
                       (_context (self w)) (hass w));
        awaited :=
          awaited w
          ++ [RunScript script (run_variables_of call) (_context (self w))];
        log := log w; template_attrs := template_attrs w |}).
Proof.
  intros Hs Hb.
  rewrite (perform_script_only _ _ _ Hs
             (fun h => _base_climate_entity_unconfigured _ h Hb)).
  unfold await_script.
  destruct (Script_async_run script (run_variables_of call)
              (_context (self w)) (hass w)); reflexivity.
Qed.

(** X5: any write call with no applicable script and no resolving base
    entity returns normally and does nothing; in particular a request for a
    mode the entity has no script for is dropped without an error. *)
Theorem write_without_script_and_base_is_noop call w :
  applicable_script (self w) call = None ->
  _base_climate_entity (self w) (hass w) = None ->
  perform call w = (inr tt, w).
Proof.
  intros Hs Hb. rewrite perform_dispatch_policy. unfold dispatch_policy.
  now rewrite Hs, Hb.
Qed.



End WriteCases.

(** ** Read properties, further *)

Section ReadCases.

Context {const : Const} {host : Host}.

Implicit Types (self : TemplateClimate) (hass : HomeAssistant).

(** X7: the base entity resolves to an entity exactly when a non-empty id is
    configured and the climate component has an entity under that id; an
    empty id counts as none, and an id the component does not know resolves
    to nothing rather than raising. *)
Theorem base_entity_resolves_iff self hass base :
  _base_climate_entity self hass = Some base <->
  exists entity_id,
    _base_climate_entity_id self = Some entity_id
    /\ entity_id <> EmptyString
    /\ get_entity (data_CLIMATE_DOMAIN hass) entity_id = Some base.
Proof. apply _base_climate_entity_Some. Qed.

Lemma testbit_flag_if (present : bool) (flag n : Z) :
  Z.testbit (flag_if present flag) n = present && Z.testbit flag n.
Proof. destruct present; simpl; [reflexivity | apply Z.bits_0]. Qed.

Lemma testbit_pow2 (k n : Z) :
  0 <= k -> Z.testbit (2 ^ k) n = (k =? n).
Proof.
  intros Hk. destruct (Z.ltb_spec n 0) as [Hn|Hn].
  - rewrite Z.testbit_neg_r by exact Hn.
    symmetry. apply Z.eqb_neq. lia.
  - apply Z.pow2_bits_eqb. exact Hk.
Qed.

(** X8: bit by bit, a feature is advertised exactly when the base entity
    advertises it or its own script group is configured: bit 8 (turn-on),
    7 (turn-off), 0 (target temperature), 2 (target humidity), 3 (fan mode),
    4 (preset mode), 5 (swing mode) and 9 (horizontal swing mode) each have
    their group; every other bit, the target-temperature range among them,
    comes from the base entity alone.  HVAC-mode scripts and a toggle script
    add no feature. *)
Theorem supported_features_bit_by_bit self hass :
  Z.testbit (supported_features self hass) 8
  = Z.testbit (base_features self hass) 8
    || contains (_service_scripts self) CONF_TURN_ON_SCRIPT
  /\ Z.testbit (supported_features self hass) 7
     = Z.testbit (base_features self hass) 7
       || contains (_service_scripts self) CONF_TURN_OFF_SCRIPT
  /\ Z.testbit (supported_features self hass) 0
     = Z.testbit (base_features self hass) 0
       || contains (_service_scripts self) CONF_SET_TEMPERATURE_SCRIPT
  /\ Z.testbit (supported_features self hass) 2
     = Z.testbit (base_features self hass) 2
       || contains (_service_scripts self) CONF_SET_HUMIDITY_SCRIPT
  /\ Z.testbit (supported_features self hass) 3
     = Z.testbit (base_features self hass) 3
       || truthy (_fan_mode_scripts self)
  /\ Z.testbit (supported_features self hass) 4
     = Z.testbit (base_features self hass) 4
       || truthy (_preset_mode_scripts self)
  /\ Z.testbit (supported_features self hass) 5
     = Z.testbit (base_features self hass) 5
       || truthy (_swing_mode_scripts self)
  /\ Z.testbit (supported_features self hass) 9
     = Z.testbit (base_features self hass) 9
       || truthy (_swing_horizontal_mode_scripts self)
  /\ (forall n,
         ~ In n [0; 2; 3; 4; 5; 7; 8; 9] ->
         Z.testbit (supported_features self hass) n
         = Z.testbit (base_features self hass) n).
Proof.
  repeat split; try intros n Hn;
    rewrite supported_features_testbit; unfold script_group_flags;
    cbn [existsb]; rewrite !testbit_flag_if.
  1-8: cbn;
    destruct (contains (_service_scripts self) CONF_TURN_ON_SCRIPT),
      (contains (_service_scripts self) CONF_TURN_OFF_SCRIPT),
      (contains (_service_scripts self) CONF_SET_TEMPERATURE_SCRIPT),
      (contains (_service_scripts self) CONF_SET_HUMIDITY_SCRIPT),
      (truthy (_fan_mode_scripts self)),
      (truthy (_preset_mode_scripts self)),
      (truthy (_swing_mode_scripts self)),
      (truthy (_swing_horizontal_mode_scripts self));
    cbn; rewrite ?orb_false_r, ?orb_true_r; reflexivity.
  change ClimateEntityFeature.TURN_ON with (2 ^ 8).
  change ClimateEntityFeature.TURN_OFF with (2 ^ 7).
  change ClimateEntityFeature.TARGET_TEMPERATURE with (2 ^ 0).
  change ClimateEntityFeature.TARGET_HUMIDITY with (2 ^ 2).
  change ClimateEntityFeature.FAN_MODE with (2 ^ 3).
  change ClimateEntityFeature.PRESET_MODE with (2 ^ 4).
  change ClimateEntityFeature.SWING_MODE with (2 ^ 5).
  change ClimateEntityFeature.SWING_HORIZONTAL_MODE with (2 ^ 9).
  rewrite !testbit_pow2 by lia.
  assert (H : forall k, In k [0; 2; 3; 4; 5; 7; 8; 9] -> (k =? n) = false).
  { intros k Hk. apply Z.eqb_neq. intros ->. contradiction. }
  rewrite !H by (simpl; tauto).
  rewrite !andb_false_r. simpl. apply orb_false_r.
Qed.

(** X21: while a mode list comes from the entity's own script mapping, the
    listed modes are exactly the modes a set-mode call has a script for. *)
Theorem listed_modes_are_the_scripted_ones self hass mode :
  (_hvac_mode_scripts self <> [] ->
   (In mode (hvac_modes self hass) <->
    exists script,
      applicable_script self (call_set_hvac_mode mode) = Some script))
  /\ (_preset_mode_scripts self <> [] ->
      forall modes,
        preset_modes self hass = Some modes ->
        (In mode modes <->
         exists script,
           applicable_script self (call_set_preset_mode mode) = Some script)).
Proof.
  unfold hvac_modes, preset_modes. cbn [applicable_script]. split.
  - intros Hne. rewrite (proj2 (truthy_nonempty _) Hne).
    rewrite <- contains_In_keys. apply contains_get.
  - intros Hne modes. rewrite (proj2 (truthy_nonempty _) Hne).
    intros [= <-]. rewrite <- contains_In_keys. apply contains_get.
Qed.

End ReadCases.

(** ** Construction and platform setup *)

Section ConstructionCases.

Context {host : Host}.

(** [Script(hass, seq, name, CLIMATE_DOMAIN)] *)
Definition script_for (name : string) (seq : ScriptSequence) : Script :=
  {| sequence := seq; script_name := name; script_domain := CLIMATE_DOMAIN |}.

Lemma get_scripts_of name configured k :
  NoDup (keys configured) ->
  get (scripts_of name configured) k
  = option_map (script_for name) (get configured k).
Proof. intros Hnd. unfold scripts_of. now rewrite get_comprehension. Qed.

(** X9: in a constructed entity each of the six mappings answers a lookup as
    the configuration does: a name has a script exactly when it is
    configured, and the script carries the configured sequence, the entity's
    name and the climate domain.  (The keys of a configured mapping are
    distinct, as those of any dictionary.) *)
Theorem constructed_scripts_answer_as_configured config name entity k :
  __init__ config name = inr entity ->
  (NoDup (keys (CONF_SERVICE_SCRIPTS config)) ->
   get (_service_scripts entity) k
   = option_map (script_for name) (get (CONF_SERVICE_SCRIPTS config) k))
  /\ (NoDup (keys (CONF_HVAC_MODE_SCRIPTS config)) ->
      get (_hvac_mode_scripts entity) k
      = option_map (script_for name) (get (CONF_HVAC_MODE_SCRIPTS config) k))
  /\ (NoDup (keys (CONF_PRESET_MODE_SCRIPTS config)) ->
      get (_preset_mode_scripts entity) k
      = option_map (script_for name)
          (get (CONF_PRESET_MODE_SCRIPTS config) k))
  /\ (NoDup (keys (CONF_FAN_MODE_SCRIPTS config)) ->
      get (_fan_mode_scripts entity) k
      = option_map (script_for name) (get (CONF_FAN_MODE_SCRIPTS config) k))
  /\ (NoDup (keys (CONF_SWING_MODE_SCRIPTS config)) ->
      get (_swing_mode_scripts entity) k
      = option_map (script_for name) (get (CONF_SWING_MODE_SCRIPTS config) k))
  /\ (NoDup (keys (CONF_SWING_HORIZONTAL_MODE_SCRIPTS config)) ->
      get (_swing_horizontal_mode_scripts entity) k
      = option_map (script_for name)
          (get (CONF_SWING_HORIZONTAL_MODE_SCRIPTS config) k)).
Proof.
  unfold __init__.
  destruct (Template___init__ (CONF_STATE config)); [discriminate|].
  intros [= <-]. cbn.
  repeat split; intros Hnd; now apply get_scripts_of.
Qed.

Lemma __init___outcome config name :
  match Template___init__ (CONF_STATE config) with
  | inl e => __init__ config name = inl e
  | inr _ => exists entity, __init__ config name = inr entity
  end.
Proof.
  unfold __init__.
  destruct (Template___init__ (CONF_STATE config)); eauto.
Qed.

Lemma async_setup_platform_loop_ok remaining :
  forall climates built,
    Forall2 (fun kv climate => __init__ (snd kv) (fst kv) = inr climate)
      remaining built ->
    async_setup_platform_loop remaining climates = inr (climates ++ built).
Proof.
  induction remaining as [|[n c] remaining IH]; intros climates built H;
    inversion H as [|kv climate rest built' Hinit Hrest]; subst; simpl.
  - now rewrite app_nil_r.
  - simpl in Hinit. rewrite Hinit. rewrite (IH _ _ Hrest).
    now rewrite <- app_assoc.
Qed.

Lemma async_setup_platform_loop_raises before :
  forall climates n c after e,
    Forall (fun kv => exists t,
                Template___init__ (CONF_STATE (snd kv)) = inr t) before ->
    Template___init__ (CONF_STATE c) = inl e ->
    async_setup_platform_loop (before ++ (n, c) :: after) climates = inl e.
Proof.
  induction before as [|[n0 c0] before IH]; intros climates n c after e Hb He;
    simpl.
  - pose proof (__init___outcome c n) as H. rewrite He in H. now rewrite H.
  - inversion Hb as [|kv rest [t Ht] Hrest]; subst. simpl in Ht.
    pose proof (__init___outcome c0 n0) as H. rewrite Ht in H.
    destruct H as [entity ->]. now apply IH.
Qed.

(** X10: platform setup is all or nothing.  If the host rejects the state
    template text of one entry (a missing one, for a host that insists on a
    string), setup raises that exception and hands no entity to the host,
    the entries constructed before the failing one included. *)
Theorem async_setup_platform_raises_and_adds_nothing
  climate_configs before n c after e platform_entities :
  items climate_configs = before ++ (n, c) :: after ->
  Forall (fun kv => exists t,
              Template___init__ (CONF_STATE (snd kv)) = inr t) before ->
  Template___init__ (CONF_STATE c) = inl e ->
  async_setup_platform climate_configs platform_entities
  = (inl e, platform_entities).
Proof.
  intros Hitems Hb He. unfold async_setup_platform. rewrite Hitems.
  now rewrite (async_setup_platform_loop_raises before [] n c after e Hb He).
Qed.

(** X11: when every entry constructs, platform setup hands the host one
    entity per entry, in the order of the configuration, each built from its
    own entry under the entry's name, after the entities the platform
    already had. *)
Theorem async_setup_platform_adds_one_per_entry
  climate_configs climates platform_entities :
  Forall2 (fun kv climate => __init__ (snd kv) (fst kv) = inr climate)
    (items climate_configs) climates ->
  async_setup_platform climate_configs platform_entities
  = (inr tt, platform_entities ++ climates).
Proof.
  intros H. unfold async_setup_platform.
  now rewrite (async_setup_platform_loop_ok _ [] climates H).
Qed.

End ConstructionCases.

(** ** Registering the state template *)

Section RegistrationCases.

Context {host : Host}.

Implicit Types (w : World).

Definition with_template_attr w (attribute : string) (tracked : Template)
  : World :=
  {| self := self w; hass := hass w; awaited := awaited w; log := log w;
     template_attrs := template_attrs w ++ [(attribute, tracked)] |}.

Lemma add_template_attribute_text attribute t text w :
  template t = Some text ->
  add_template_attribute attribute (Some t) w
  = match Template___init__
            (Some ((("{% set attribute = '" ++ attribute) ++ "' %}")
                   ++ text)%string) with
    | inl e => (inl e, w)
    | inr tracked => (inr tt, with_template_attr w attribute tracked)
    end.
Proof.
  intros Ht.
  unfold add_template_attribute, bind, lift, deref, ret.
  cbv beta iota zeta. cbn [str_add]. rewrite Ht. cbn [str_add].
  destruct (Template___init__ _); reflexivity.
Qed.

(** X12: the overridden [add_template_attribute] hands the superclass a new
    template, made from the text of the given one behind the statement
    [{% set attribute = '<attribute>' %}], and the superclass records it
    under the attribute's name; when the host rejects the prefixed text its
    exception leaves the method and nothing is recorded.  Nothing else of
    the world changes. *)
Theorem add_template_attribute_tracks_prefixed_text attribute t text w :
  template t = Some text ->
  add_template_attribute attribute (Some t) w
  = match Template___init__
            (Some ((("{% set attribute = '" ++ attribute) ++ "' %}")
                   ++ text)%string) with
    | inl e => (inl e, w)
    | inr tracked => (inr tt, with_template_attr w attribute tracked)
    end.
Proof. apply add_template_attribute_text. Qed.

End RegistrationCases.

(** ** The callback, further *)

Section CallbackCases.

Context {host : Host}.

Implicit Types (w : World) (result : RenderResult).

Lemma _update_state_world result w :
  hass (snd (_update_state result w)) = hass w
  /\ awaited (snd (_update_state result w)) = awaited w
  /\ template_attrs (snd (_update_state result w)) = template_attrs w
  /\ (log (snd (_update_state result w)) = log w
      \/ exists fmt,
           log (snd (_update_state result w))
           = log w ++ [LogError fmt result]).
Proof.
  destruct result as [err|s|[e|s]]; cbn; try (repeat split; eauto; fail).
  destruct e; cbn; repeat split; eauto.
Qed.





(** X15: only [ValueError] is caught.  When converting the result to a
    string raises anything else, the exception leaves the callback, nothing
    is logged, and the stored state keeps its previous value. *)
Theorem _update_state_lets_other_exceptions_through w e :
  is_ValueError e = false ->
  fst (_update_state (ResultObject (inl e)) w) = inl e
  /\ _state (self (snd (_update_state (ResultObject (inl e)) w)))
     = _state (self w)
  /\ log (snd (_update_state (ResultObject (inl e)) w)) = log w.
Proof. intros He. cbn. rewrite He. cbn. auto. Qed.

(** X16: the callback awaits nothing and leaves the shared object and the
    registered templates alone; of the entity it keeps the context, the poll
    flag, the unit, the base entity id and the template; it logs at most one
    record, and that record carries the delivered result. *)
Theorem _update_state_touches_state_and_log_only result w :
  hass (snd (_update_state result w)) = hass w
  /\ awaited (snd (_update_state result w)) = awaited w
  /\ template_attrs (snd (_update_state result w)) = template_attrs w
  /\ _context (self (snd (_update_state result w))) = _context (self w)
  /\ _attr_should_poll (self (snd (_update_state result w)))
     = _attr_should_poll (self w)
  /\ _attr_temperature_unit (self (snd (_update_state result w)))
     = _attr_temperature_unit (self w)
  /\ _base_climate_entity_id (self (snd (_update_state result w)))
     = _base_climate_entity_id (self w)
  /\ _state_template (self (snd (_update_state result w)))
     = _state_template (self w)
  /\ (log (snd (_update_state result w)) = log w
      \/ exists fmt,
           log (snd (_update_state result w))
           = log w ++ [LogError fmt result]).
Proof.
  pose proof (_update_state_world result w) as (Hh & Ha & Ht & Hl).
  pose proof (_update_state_fields result w) as Hf. cbv zeta in Hf.
  repeat split; try tauto.
Qed.

End CallbackCases.

(** ** Over an entity's life, further *)

Section LifeCases.

Context {const : Const} {host : Host}.

Implicit Types (w : World) (config : ConfigType) (name : string).

(** What of an entity comes from its configuration. *)
Definition configured_as config name (entity : TemplateClimate) : Prop :=
  _attr_should_poll entity = false
  /\ _attr_temperature_unit entity = CONF_TEMPERATURE_UNIT config
  /\ _base_climate_entity_id entity = CONF_BASE_CLIMATE_ENTITY_ID config
  /\ _service_scripts entity = scripts_of name (CONF_SERVICE_SCRIPTS config)
  /\ _hvac_mode_scripts entity
     = scripts_of name (CONF_HVAC_MODE_SCRIPTS config)
  /\ _preset_mode_scripts entity
     = scripts_of name (CONF_PRESET_MODE_SCRIPTS config)
  /\ _fan_mode_scripts entity = scripts_of name (CONF_FAN_MODE_SCRIPTS config)
  /\ _swing_mode_scripts entity
     = scripts_of name (CONF_SWING_MODE_SCRIPTS config)
  /\ _swing_horizontal_mode_scripts entity
     = scripts_of name (CONF_SWING_HORIZONTAL_MODE_SCRIPTS config).

Lemma reachable_configured_as config name w :
  reachable config name w -> configured_as config name (self w).
Proof.
  induction 1 as [entity hass0 Hinit | w Hr IH | w tracked result Hr IH Hin
                 | w context call Hr IH | w hass' Hr IH
                 | w attribute inherited Hr IH].
  - unfold __init__ in Hinit.
    destruct (Template___init__ (CONF_STATE config)); [discriminate|].
    injection Hinit as <-. cbn. repeat split.
  - rewrite async_added_to_hass_self. exact IH.
  - pose proof (_update_state_fields result w) as Hf. cbv zeta in Hf.
    unfold configured_as in *.
    destruct Hf as (_ & _ & -> & -> & -> & _ & -> & -> & -> & -> & -> & ->).
    exact IH.
  - destruct (perform_frame call (snd (set__context context w))) as (-> & _).
    exact IH.
  - exact IH.
  - destruct (add_template_attribute_frame attribute (Some inherited) w)
      as (-> & _).
    exact IH.
Qed.

Lemma async_added_to_hass_attrs w :
  template_attrs (snd (async_added_to_hass w)) = template_attrs w
  \/ exists tracked,
       template_attrs (snd (async_added_to_hass w))
       = template_attrs w ++ [("_state", tracked)].
Proof.
  unfold async_added_to_hass, add_template_attribute, bind, attr, lift,
    deref, ret, raise.
  cbv beta iota zeta.
  destruct (_state_template (self w)) as [t|]; [|now left].
  cbn [str_add].
  destruct (str_add _ (template t)) as [e|text]; [now left|].
  destruct (Template___init__ (Some text)) as [e|tracked]; [now left|].
  right. exists tracked. reflexivity.
Qed.

(** X18: what an entity got from its configuration stays for its whole
    life.  In every world reachable from the constructor the six script
    mappings, the base entity id, the temperature unit and the poll flag are
    those the constructor derived from the configuration: no registration,
    render, service call or host activity changes them. *)
Theorem configuration_is_kept_for_life config name w :
  reachable config name w ->
  _attr_should_poll (self w) = false
  /\ _attr_temperature_unit (self w) = CONF_TEMPERATURE_UNIT config
  /\ _base_climate_entity_id (self w) = CONF_BASE_CLIMATE_ENTITY_ID config
  /\ _service_scripts (self w) = scripts_of name (CONF_SERVICE_SCRIPTS config)
  /\ _hvac_mode_scripts (self w)
     = scripts_of name (CONF_HVAC_MODE_SCRIPTS config)
  /\ _preset_mode_scripts (self w)
     = scripts_of name (CONF_PRESET_MODE_SCRIPTS config)
  /\ _fan_mode_scripts (self w)
     = scripts_of name (CONF_FAN_MODE_SCRIPTS config)
  /\ _swing_mode_scripts (self w)
     = scripts_of name (CONF_SWING_MODE_SCRIPTS config)
  /\ _swing_horizontal_mode_scripts (self w)
     = scripts_of name (CONF_SWING_HORIZONTAL_MODE_SCRIPTS config).
Proof. apply reachable_configured_as. Qed.

(** X20: at any time in an entity's life, a non-empty configured HVAC-mode
    or preset-mode mapping makes the corresponding mode list the configured
    names in their configured order, whatever the base entity offers. *)
Theorem mode_lists_follow_configuration_for_life config name w :
  reachable config name w ->
  (CONF_HVAC_MODE_SCRIPTS config <> [] ->
   NoDup (keys (CONF_HVAC_MODE_SCRIPTS config)) ->
   hvac_modes (self w) (hass w) = keys (CONF_HVAC_MODE_SCRIPTS config))
  /\ (CONF_PRESET_MODE_SCRIPTS config <> [] ->
      NoDup (keys (CONF_PRESET_MODE_SCRIPTS config)) ->
      preset_modes (self w) (hass w)
      = Some (keys (CONF_PRESET_MODE_SCRIPTS config))).
Proof.
  intros Hr. apply reachable_configured_as in Hr.
  destruct Hr as (_ & _ & _ & _ & Hh & Hp & _).
  unfold hvac_modes, preset_modes. rewrite Hh, Hp, !scripts_of_truthy.
  split; intros Hne Hnd; rewrite (proj2 (truthy_nonempty _) Hne);
    now rewrite scripts_of_keys.
Qed.

(** X19: the stored state is [None] for as long as no template has been
    registered: in every reachable world with no registered template the
    entity's [_state] is [None]. *)
Theorem state_is_stored_only_after_registration config name w :
  reachable config name w ->
  template_attrs w = [] ->
  _state (self w) = None.
Proof.
  intros Hr.
  enough (H : _state (self w) = None \/ template_attrs w <> []).
  { intros Hnil. destruct H as [H|H]; [exact H | contradiction]. }
  induction Hr as [entity hass0 Hinit | w Hr IH | w tracked result Hr IH Hin
                  | w context call Hr IH | w hass' Hr IH
                  | w attribute inherited Hr IH].
  - left. apply __init___fields in Hinit. simpl. tauto.
  - rewrite async_added_to_hass_self.
    destruct IH as [IH|IH]; [|right].
    + destruct (async_added_to_hass_attrs w) as [->|[tracked ->]].
      * destruct (template_attrs w); [now left | right; discriminate].
      * right. intros Heq. now apply app_eq_nil in Heq.
    + destruct (async_added_to_hass_attrs w) as [->|[tracked ->]];
        [exact IH|].
      intros Heq. now apply app_eq_nil in Heq.
  - right.
    destruct (_update_state_world result w) as (_ & _ & -> & _).
    intros Hnil. rewrite Hnil in Hin. destruct Hin.
  - destruct (perform_frame call (snd (set__context context w)))
      as (-> & _ & ->).
    exact IH.
  - exact IH.
  - destruct (add_template_attribute_frame attribute (Some inherited) w)
      as (-> & _ & _ & _ & Hattrs).
    destruct IH as [IH|IH]; [now left | right].
    destruct Hattrs as [->|[tracked ->]]; [exact IH|].
    intros Heq. now apply app_eq_nil in Heq.
Qed.

(** X17: [state] reports what the callback stored last.  In any reachable
    world, after a render that delivered a string the property is that
    string; after a render that delivered an error the property is [None],
    also when a base entity resolves: a failed render does not fall back to
    the base entity. *)
Theorem state_follows_the_last_render config name w :
  reachable config name w ->
  (forall s hass',
      state (self (snd (_update_state (ResultStr s) w))) hass' = Some s)
  /\ (forall err hass',
         state (self (snd (_update_state (ResultTemplateError err) w))) hass'
         = None).
Proof.
  intros Hr. destruct (reachable_has_template _ _ _ Hr) as (t & _ & Ht).
  split; intros x hass'; unfold state.
  - destruct (_update_state_fields (ResultStr x) w)
      as (_ & _ & _ & _ & _ & -> & _).
    rewrite Ht. reflexivity.
  - destruct (_update_state_fields (ResultTemplateError x) w)
      as (_ & _ & _ & _ & _ & -> & _).
    rewrite Ht. reflexivity.
Qed.

End LifeCases.

(** ** Further worked inputs *)

Lemma sample_reachable_after_call :
  @reachable Sample.const Sample.lenient Sample.config_full "virtual"
    SampleMore.world_after_call.
Proof. apply reach_call, reach_init. reflexivity. Qed.

Lemma write_stops_when_script_raises_witness :
  @perform Sample.const SampleMore.failing_scripts (call_set_fan_mode "low")
    (SampleMore.world_failing Sample.hass_with_base)
  = (inl (OtherError "HomeAssistantError" "script failed"),
     {| self := SampleMore.entity_full_failing;
        hass := Sample.hass_with_base;
        awaited := [RunScript (script_for "virtual" ["l"]) None None];
        log := []; template_attrs := [] |}).
Proof.
  exact (@write_stops_when_script_raises Sample.const
           SampleMore.failing_scripts (call_set_fan_mode "low")
           (SampleMore.world_failing Sample.hass_with_base)
           (script_for "virtual" ["l"])
           (OtherError "HomeAssistantError" "script failed")
           Sample.hass_with_base eq_refl eq_refl).
Defined.

Lemma write_without_script_forwards_to_base_witness :
  @perform Sample.const Sample.lenient (call_set_fan_mode "turbo")
    (Sample.world_of Sample.entity_full Sample.hass_with_base)
  = (inr tt,
     {| self := Sample.entity_full; hass := Sample.hass_with_base;
        awaited := [BaseCall Sample.base (call_set_fan_mode "turbo")];
        log := []; template_attrs := [] |}).
Proof.
  exact (@write_without_script_forwards_to_base Sample.const Sample.lenient
           (call_set_fan_mode "turbo")
           (Sample.world_of Sample.entity_full Sample.hass_with_base)
           Sample.base eq_refl eq_refl).
Defined.

Lemma write_without_base_runs_script_only_witness :
  @perform Sample.const Sample.lenient (call_set_hvac_mode "heat")
    (Sample.world_of SampleMore.entity_scripts_only Sample.hass_with_base)
  = (inr tt,
     {| self := SampleMore.entity_scripts_only;
        hass := Sample.hass_with_base;
        awaited := [RunScript (script_for "virtual" ["h"]) None None];
        log := []; template_attrs := [] |}).
Proof.
  exact (@write_without_base_runs_script_only Sample.const Sample.lenient
           (call_set_hvac_mode "heat")
           (Sample.world_of SampleMore.entity_scripts_only
              Sample.hass_with_base)
           (script_for "virtual" ["h"]) eq_refl eq_refl).
Defined.

Lemma write_without_script_and_base_is_noop_witness :
  @perform Sample.const Sample.lenient (call_set_fan_mode "turbo")
    (Sample.world_of SampleMore.entity_scripts_only Sample.hass_with_base)
  = (inr tt,
     Sample.world_of SampleMore.entity_scripts_only Sample.hass_with_base).
Proof.
  exact (@write_without_script_and_base_is_noop Sample.const Sample.lenient
           (call_set_fan_mode "turbo")
           (Sample.world_of SampleMore.entity_scripts_only
              Sample.hass_with_base)
           eq_refl eq_refl).
Defined.

Lemma constructed_scripts_answer_as_configured_witness :
  get (_fan_mode_scripts Sample.entity_full) "low"
  = Some (script_for "virtual" ["l"])
  /\ get (_fan_mode_scripts Sample.entity_full) "turbo" = None.
Proof.
  split.
  - refine (proj1 (proj2 (proj2 (proj2
             (@constructed_scripts_answer_as_configured Sample.lenient
                Sample.config_full "virtual" Sample.entity_full "low"
                eq_refl)))) _).
    repeat constructor; simpl; intuition discriminate.
  - refine (proj1 (proj2 (proj2 (proj2
             (@constructed_scripts_answer_as_configured Sample.lenient
                Sample.config_full "virtual" Sample.entity_full "turbo"
                eq_refl)))) _).
    repeat constructor; simpl; intuition discriminate.
Defined.

Lemma async_setup_platform_raises_and_adds_nothing_witness :
  @async_setup_platform Sample.strict SampleMore.climates_two []
  = (inl (TypeError "Expected template to be a string"), []).
Proof.
  refine (@async_setup_platform_raises_and_adds_nothing Sample.strict
            SampleMore.climates_two [("living_room", Sample.config_full)]
            "attic" Sample.config_bare []
            (TypeError "Expected template to be a string") []
            eq_refl _ eq_refl).
  repeat constructor. simpl. eexists. reflexivity.
Defined.

Lemma async_setup_platform_adds_one_per_entry_witness :
  @async_setup_platform Sample.lenient SampleMore.climates_templated []
  = (inr tt, [SampleMore.entity_living_room; SampleMore.entity_office]).
Proof.
  refine (@async_setup_platform_adds_one_per_entry Sample.lenient
            SampleMore.climates_templated
            [SampleMore.entity_living_room; SampleMore.entity_office] [] _).
  repeat constructor.
Defined.




Lemma _update_state_lets_other_exceptions_through_witness :
  fst (@_update_state Sample.lenient
         (ResultObject (inl (TypeError "__str__ returned non-string")))
         (Sample.world_of Sample.entity_full Sample.hass_empty))
  = inl (TypeError "__str__ returned non-string").
Proof.
  exact (proj1 (@_update_state_lets_other_exceptions_through Sample.lenient
                  (Sample.world_of Sample.entity_full Sample.hass_empty)
                  (TypeError "__str__ returned non-string") eq_refl)).
Defined.

Lemma configuration_is_kept_for_life_witness :
  _base_climate_entity_id (self SampleMore.world_after_call)
  = Some "climate.base".
Proof.
  refine (proj1 (proj2 (proj2
            (@configuration_is_kept_for_life Sample.const Sample.lenient
               Sample.config_full "virtual" SampleMore.world_after_call
               _)))).
  apply reach_call, reach_init. reflexivity.
Defined.

Lemma mode_lists_follow_configuration_for_life_witness :
  hvac_modes (self SampleMore.world_after_call)
    (hass SampleMore.world_after_call)
  = ["heat"; "cool"].
Proof.
  refine (proj1
            (@mode_lists_follow_configuration_for_life Sample.const
               Sample.lenient Sample.config_full "virtual"
               SampleMore.world_after_call _) _ _).
  - apply reach_call, reach_init. reflexivity.
  - discriminate.
  - repeat constructor; simpl; intuition discriminate.
Defined.

Lemma state_is_stored_only_after_registration_witness :
  _state (self SampleMore.world_after_call) = None.
Proof.
  refine (@state_is_stored_only_after_registration Sample.const
            Sample.lenient Sample.config_full "virtual"
            SampleMore.world_after_call _ eq_refl).
  apply reach_call, reach_init. reflexivity.
Defined.


Lemma state_follows_the_last_render_witness :
  state
    (self (snd (@_update_state Sample.lenient (ResultStr "cool")
                  (Sample.world_of Sample.entity_full
                     Sample.hass_with_base))))
    Sample.hass_with_base
  = Some "cool".
Proof.
  refine (proj1
            (@state_follows_the_last_render Sample.const Sample.lenient
               Sample.config_full "virtual"
               (Sample.world_of Sample.entity_full Sample.hass_with_base) _)
            "cool" Sample.hass_with_base).
  apply reach_init. reflexivity.
Defined.

Lemma listed_modes_are_the_scripted_ones_witness :
  In "cool" (hvac_modes Sample.entity_full Sample.hass_with_base)
  <-> exists script,
        @applicable_script Sample.const Sample.lenient Sample.entity_full
          (call_set_hvac_mode "cool")
        = Some script.
Proof.
  refine (proj1 (@listed_modes_are_the_scripted_ones Sample.const
                   Sample.lenient Sample.entity_full Sample.hass_with_base
                   "cool") _).
  discriminate.
Defined.

Lemma supported_features_or_of_groups_witness :
  @supported_features Sample.const Sample.strict
    SampleMore.entity_full_strict SampleMore.hass_with_range
  = 959
  /\ @supported_features Sample.const Sample.strict
       SampleMore.entity_full_strict Sample.hass_empty
     = 957.
Proof.
  split.
  - refine (proj1 (@supported_features_or_of_groups Sample.const Sample.strict
                     SampleMore.entity_full_strict SampleMore.hass_with_range
                     ClimateEntityFeature.TARGET_TEMPERATURE_RANGE _)).
    left. exists "climate.base", SampleMore.base_with_range.
    repeat split. discriminate.
  - refine (proj1 (@supported_features_or_of_groups Sample.const Sample.strict
                     SampleMore.entity_full_strict Sample.hass_empty 0 _)).
    right. split; [|reflexivity]. intros entity_id [= <-] _. reflexivity.
Defined.

Lemma add_template_attribute_tracks_prefixed_text_witness :
  @add_template_attribute Sample.strict "_attr_icon"
    (Some {| template := Some "mdi:thermostat" |})
    (SampleMore.world_strict Sample.hass_empty)
  = (inr tt,
     {| self := SampleMore.entity_full_strict; hass := Sample.hass_empty;
        awaited := []; log := [];
        template_attrs :=
          [("_attr_icon",
            {| template :=
                 Some "{% set attribute = '_attr_icon' %}mdi:thermostat" |})]
     |}).
Proof.
  exact (@add_template_attribute_tracks_prefixed_text Sample.strict
           "_attr_icon" {| template := Some "mdi:thermostat" |}
           "mdi:thermostat" (SampleMore.world_strict Sample.hass_empty)
           eq_refl).
Defined.

(** ** Where the code leaves the specification *)

(** Without a state template text, a host whose [Template] insists on a
    string builds no entity, so nothing is ever reachable. *)
Lemma no_world_without_state_template
  {const : Const} {host : Host} config name e w :
  CONF_STATE config = None ->
  Template___init__ None = inl e ->
  ~ reachable config name w.
Proof.
  intros Hstate Hhost Hr.
  destruct (reachable_has_template _ _ _ Hr) as (t & Ht & _).
  rewrite Hstate, Hhost in Ht. discriminate.
Qed.

(** C8, at the input where the code leaves the claim: no state template and
    no base entity.  The constructor passes the missing text to [Template],
    which raises [TypeError]; the exception leaves [__init__] and
    [async_setup_platform], no entity is handed to the host, and there is
    no [state] to read. *)
Theorem no_entity_without_state_template :
  @__init__ Sample.strict Sample.config_bare "virtual"
  = inl (TypeError "Expected template to be a string")
  /\ @async_setup_platform Sample.strict
       [("virtual", Sample.config_bare)] []
     = (inl (TypeError "Expected template to be a string"), []).
Proof. split; reflexivity. Qed.

(** C5 as first stated does not hold for a conversion that fails with
    anything but [ValueError]: after ["heat"] was stored, a result whose
    [__str__] raises [TypeError] makes the callback raise, keep ["heat"] and
    log nothing. *)
Lemma _update_state_conversion_failure_escapes :
  _state (self SampleMore.world_heat) = Some "heat"
  /\ fst (@_update_state Sample.strict
            (ResultObject (inl (TypeError "__str__ returned non-string")))
            SampleMore.world_heat)
     = inl (TypeError "__str__ returned non-string")
  /\ _state
       (self (snd (@_update_state Sample.strict
                     (ResultObject
                        (inl (TypeError "__str__ returned non-string")))
                     SampleMore.world_heat)))
     = Some "heat"
  /\ log (snd (@_update_state Sample.strict
                 (ResultObject
                    (inl (TypeError "__str__ returned non-string")))
                 SampleMore.world_heat))
     = [].
Proof. repeat split. Qed.
